(** * Telemetry latency checker: a shallow embedding of [app.py] and [api/app.py]

    The service loads one CSV table at start-up and answers, per requested
    region, the mean and 95th-percentile latency, the mean uptime and the number
    of threshold breaches.  This file embeds

    - [_find_column], the column resolver of [app.py];
    - [latency_check], the [/api/latency] endpoint of [app.py], as a program
      over a store of data frames: the endpoint works on a copy of the
      module-level frame and assigns columns of that copy;
    - [check_latency], the [/] endpoint of [api/app.py];

    together with the fragment of pandas, numpy and Python they call.

    Modelling choices.

    - Numbers are IEEE-754 binary64 values (Rocq's primitive floats), so NaN,
      rounding and comparisons behave as they do in the program.  Python's
      [round], numpy's [rint] and the linear percentile are computed from the
      exact binary value of their argument.  A sum adds its values in the
      order numpy adds them (pairwise, in blocks of eight), and the
      percentile of an int64 column takes the difference of two neighbours in
      int64, as numpy does.
    - Strings are byte strings; [lower] and [strip] act on the ASCII range.
    - A [Series] has dtype int64, float64 or object, the dtypes of numbers
      and text; an object cell is a [str] or the missing value.  Columns of
      other dtypes (bool, datetime) are not part of the embedding.  A
      [DataFrame] is the length of its index and its named columns in table
      order.
    - Frames are mutable objects kept in a store; [df.copy()] allocates,
      [df[c] = s] updates the frame at the address of [df].
    - The number parser of [pd.to_numeric] and [str] of a float are
      parameters of the development: every statement holds for all of them.
    - An exception is an outcome; [HTTPException] carries its status code and
      detail. *)

From Stdlib Require Import ZArith List String Ascii Lia Bool Sorted.
From Stdlib Require Import Floats.
From stdpp Require Import base option list gmap strings pretty.

Set Warnings "-inexact-float".

Local Open Scope string_scope.
Local Open Scope Z_scope.

(* ===================================================================== *)
(** * Python strings *)
(* ===================================================================== *)

Module PyStr.

(** [str.lower] on the ASCII range: [A]..[Z] go to [a]..[z], every other
    byte is kept. *)
Definition lower_ascii (c : ascii) : ascii :=
  let n := nat_of_ascii c in
  if (65 <=? n)%nat && (n <=? 90)%nat then ascii_of_nat (n + 32) else c.

Fixpoint lower (s : string) : string :=
  match s with
  | EmptyString => EmptyString
  | String c s' => String (lower_ascii c) (lower s')
  end.

(** The ASCII characters for which [str.isspace] holds: TAB, LF, VT, FF, CR,
    the four separators FS, GS, RS, US, and the space. *)
Definition is_space (c : ascii) : bool :=
  let n := nat_of_ascii c in
  ((9 <=? n)%nat && (n <=? 13)%nat) || ((28 <=? n)%nat && (n <=? 32)%nat).

Fixpoint lstrip (s : string) : string :=
  match s with
  | EmptyString => EmptyString
  | String c s' => if is_space c then lstrip s' else s
  end.

Fixpoint rstrip (s : string) : string :=
  match s with
  | EmptyString => EmptyString
  | String c s' =>
      match rstrip s' with
      | EmptyString => if is_space c then EmptyString else String c EmptyString
      | r => String c r
      end
  end.

(** [s.strip()] *)
Definition strip (s : string) : string := lstrip (rstrip s).

(** [sub in s]: [sub] occurs in [s] as a contiguous substring. *)
Fixpoint contains (sub s : string) : bool :=
  String.prefix sub s ||
  match s with
  | EmptyString => false
  | String _ s' => contains sub s'
  end.

(** The text of [s] after the first occurrence of [marker]. *)
Fixpoint drop_chars (n : nat) (s : string) : string :=
  match n, s with
  | S n', String _ s' => drop_chars n' s'
  | _, _ => s
  end.

Fixpoint after_marker (marker s : string) : option string :=
  if String.prefix marker s then Some (drop_chars (String.length marker) s)
  else
    match s with
    | EmptyString => None
    | String _ s' => after_marker marker s'
    end.

(** The text of [s] before the first [c]. *)
Fixpoint until_char (c : ascii) (s : string) : string :=
  match s with
  | EmptyString => EmptyString
  | String a s' => if Ascii.eqb a c then EmptyString else String a (until_char c s')
  end.

(** [s.split(c)] *)
Fixpoint split_on (c : ascii) (s : string) : list string :=
  match s with
  | EmptyString => [EmptyString]
  | String a s' =>
      if Ascii.eqb a c then EmptyString :: split_on c s'
      else
        match split_on c s' with
        | [] => [String a EmptyString]
        | w :: ws => String a w :: ws
        end
  end.

(** A string that [lower] leaves alone. *)
Definition is_lower (s : string) : Prop := lower s = s.

(** Equality up to ASCII case. *)
Definition ci_eq (a b : string) : Prop := lower a = lower b.

End PyStr.

Import PyStr.

(* ===================================================================== *)
(** * Column resolver ([_find_column], app.py lines 36-46) *)
(* ===================================================================== *)

(** [{c.lower(): c for c in df.columns}]: built left to right, a later column
    replaces an earlier one with the same lowercased name. *)
Definition lower_dict (columns : list string) : gmap string string :=
  foldl (fun m c => <[lower c := c]> m) ∅ columns.

(** First loop: candidates in priority order, looked up in the dictionary. *)
Fixpoint find_exact (lowerd : gmap string string) (candidates : list string)
  : option string :=
  match candidates with
  | [] => None
  | cand :: rest =>
      match lowerd !! cand with
      | Some c => Some c
      | None => find_exact lowerd rest
      end
  end.

(** Second loop: columns in table order; a column is returned as soon as one
    candidate occurs in its lowercased name. *)
Fixpoint find_substring (columns candidates : list string) : option string :=
  match columns with
  | [] => None
  | col :: rest =>
      if existsb (fun cand => contains cand (lower col)) candidates
      then Some col
      else find_substring rest candidates
  end.

Definition find_column_names (columns candidates : list string) : option string :=
  match find_exact (lower_dict columns) candidates with
  | Some c => Some c
  | None => find_substring columns candidates
  end.

Definition latency_candidates : list string :=
  ["latency_ms"; "latency"; "rtt"; "ping_ms"; "ping"].
Definition region_candidates : list string :=
  ["region"; "region_name"; "area"; "location"].
Definition uptime_candidates : list string :=
  ["uptime"; "availability"; "up"; "availability_pct"].

(* ===================================================================== *)
(** * binary64 numbers: conversions, Python's [round], numpy's [rint] *)
(* ===================================================================== *)

Module Num.

Local Open Scope float_scope.

(** The binary64 value nearest to an integer. *)
Definition of_Z (z : Z) : float :=
  SF2Prim (binary_normalize prec emax z 0%Z false).

(** [floor] of a finite value, as an integer ([0] for NaN and infinities,
    which the callers exclude). *)
Definition floor_Z (x : float) : Z :=
  match Prim2SF x with
  | S754_finite s m e =>
      let v := if s then Z.neg m else Z.pos m in
      if (0 <=? e)%Z then (v * 2 ^ e)%Z else (v / 2 ^ (- e))%Z
  | _ => 0%Z
  end.

(** [num / den] rounded to the nearest integer, ties to even ([0 < den],
    [0 <= num]). *)
Definition round_half_even (num den : Z) : Z :=
  let q := (num / den)%Z in
  let r := (num mod den)%Z in
  match (2 * r ?= den)%Z with
  | Lt => q
  | Gt => (q + 1)%Z
  | Eq => if Z.even q then q else (q + 1)%Z
  end.

(** The integer nearest to [|x| * scale] for a finite [x = ± m * 2^e]. *)
Definition scaled_nearest (m : positive) (e : Z) (scale : Z) : Z :=
  if (0 <=? e)%Z then (Z.pos m * 2 ^ e * scale)%Z
  else round_half_even (Z.pos m * scale) (2 ^ (- e)).

(** Python's [round(x, ndigits)] for a float and [0 <= ndigits]: the exact
    binary value is rounded half-to-even to [ndigits] decimals, and the
    decimal result is converted back to the nearest binary64 value; NaN and
    the infinities are returned unchanged. *)
Definition py_round (x : float) (ndigits : Z) : float :=
  match Prim2SF x with
  | S754_finite s m e =>
      let p := (10 ^ ndigits)%Z in
      match scaled_nearest m e p with
      | Z.pos n =>
          SF2Prim (SFdiv prec emax (S754_finite s n 0) (S754_finite false (Z.to_pos p) 0))
      | _ => if s then neg_zero else zero
      end
  | _ => x
  end.

(** numpy's [rint]: nearest integral value, ties to even. *)
Definition np_rint (x : float) : float :=
  match Prim2SF x with
  | S754_finite s m e =>
      if (0 <=? e)%Z then x
      else
        match round_half_even (Z.pos m) (2 ^ (- e)) with
        | Z.pos n => of_Z (if s then Z.neg n else Z.pos n)
        | _ => if s then neg_zero else zero
        end
  | _ => x
  end.

(** [round] on a [numpy.float64] ([ndarray.round]): scale, [rint], unscale. *)
Definition np_round (x : float) (decimals : Z) : float :=
  np_rint (x * of_Z (10 ^ decimals)) / of_Z (10 ^ decimals).

(** *** Sums

    [np.add.reduce] over float64 values is numpy's [DOUBLE_pairwise_sum]:
    fewer than eight values are added left to right, starting from [-0.0];
    up to 128 values are added into eight running sums, one for each
    position modulo 8, which are then combined as
    [((r0 + r1) + (r2 + r3)) + ((r4 + r5) + (r6 + r7))], the values left over
    after the last full group of eight being added to that, one by one; a
    longer array is split at [n / 2] rounded down to a multiple of 8 and the
    sums of the two parts are added. *)

(** The running sums [r0] .. [r7] take the full groups of eight of [l]; the
    rest of [l] is added to their combination. *)
Fixpoint add_blocks (r0 r1 r2 r3 r4 r5 r6 r7 : float) (l : list float) : float :=
  match l with
  | x0 :: x1 :: x2 :: x3 :: x4 :: x5 :: x6 :: x7 :: l' =>
      add_blocks (r0 + x0) (r1 + x1) (r2 + x2) (r3 + x3)
                 (r4 + x4) (r5 + x5) (r6 + x6) (r7 + x7) l'
  | _ =>
      fold_left PrimFloat.add l
        (((r0 + r1) + (r2 + r3)) + ((r4 + r5) + (r6 + r7)))
  end.

(** The two branches without recursion: [n < 8] and [8 <= n <= 128]. *)
Definition sum_block (l : list float) : float :=
  match l with
  | r0 :: r1 :: r2 :: r3 :: r4 :: r5 :: r6 :: r7 :: l' =>
      add_blocks r0 r1 r2 r3 r4 r5 r6 r7 l'
  | _ => fold_left PrimFloat.add l neg_zero
  end.

(** Where an array of [n > 128] values is split. *)
Definition split_point (n : nat) : nat := (n / 2 - (n / 2) mod 8)%nat.

(** [depth] bounds the nesting of the splits; the length of the list is
    always enough (lemma [pairwise_sum_depth]). *)
Fixpoint pairwise_sum (depth : nat) (l : list float) : float :=
  match depth with
  | S depth' =>
      if (128 <? length l)%nat
      then pairwise_sum depth' (firstn (split_point (length l)) l)
           + pairwise_sum depth' (skipn (split_point (length l)) l)
      else sum_block l
  | O => sum_block l
  end.

Definition pairwise (l : list float) : float := pairwise_sum (length l) l.

(** [arr.sum()] for a float64 array: the reduction starts from [-0.0] and
    adds the pairwise sum of the whole array; the sum of no value is [0.0]. *)
Definition np_sum (l : list float) : float :=
  match l with
  | [] => 0
  | _ => neg_zero + pairwise l
  end.

(** The size of the buffer in which a reduction casts its input. *)
Definition bufsize : nat := (64 * 128)%nat.

(** A reduction over values that have to be cast goes through the buffer:
    each buffer is summed pairwise and added to the result so far. *)
Fixpoint buffered_sum (buffers : nat) (acc : float) (l : list float) : float :=
  match buffers with
  | S buffers' =>
      if (bufsize <? length l)%nat
      then buffered_sum buffers' (acc + pairwise (firstn bufsize l)) (skipn bufsize l)
      else acc + pairwise l
  | O => acc + pairwise l
  end.

(** [arr.sum(dtype=float64)] for an int64 array. *)
Definition np_sum_cast (l : list Z) : float :=
  match l with
  | [] => 0
  | _ => buffered_sum (length l) neg_zero (map of_Z l)
  end.

(** *** Order statistics and the linear percentile *)

(** A list in increasing order for [leb] (insertion sort). *)
Fixpoint insert_sorted {A : Type} (leb : A -> A -> bool) (x : A) (l : list A)
  : list A :=
  match l with
  | [] => [x]
  | y :: l' => if leb x y then x :: l else y :: insert_sorted leb x l'
  end.

Definition sort_by {A : Type} (leb : A -> A -> bool) (l : list A) : list A :=
  fold_right (insert_sorted leb) [] l.

(** [arr[i]] with Python's negative indices. *)
Definition take_at {A : Type} (dflt : A) (arr : list A) (i : Z) : A :=
  nth (Z.to_nat (i mod Z.of_nat (length arr))) arr dflt.

(** The method [linear] of [np.percentile] on sorted values: the virtual
    index is [(n - 1) * (q / 100)]; the two neighbouring order statistics are
    interpolated with the fractional part of the index as weight.  An index
    at or beyond the last position takes the last element for both
    neighbours, an index below [0] the first. *)
Definition linear_percentile {A : Type} (interpolate : A -> A -> float -> float)
    (dflt : A) (sorted : list A) (q : float) : float :=
  let quantile := q / 100 in
  let n := Z.of_nat (length sorted) in
  let virtual_index := of_Z (n - 1) * quantile in
  let above := of_Z (n - 1) <=? virtual_index in
  let below := virtual_index <? 0 in
  let previous_index :=
    if below then 0%Z else if above then (-1)%Z else floor_Z virtual_index in
  let next_index :=
    if below then 0%Z else if above then (-1)%Z else (floor_Z virtual_index + 1)%Z in
  let gamma := virtual_index - of_Z previous_index in
  interpolate (take_at dflt sorted previous_index) (take_at dflt sorted next_index) gamma.

Definition np_sort (l : list float) : list float := sort_by PrimFloat.leb l.


(** numpy's [_lerp] on float64: [a + (b - a) * t], computed from [b] when
    [t >= 0.5]. *)
Definition lerp (a b t : float) : float :=
  let diff_b_a := b - a in
  if 0.5 <=? t then b - diff_b_a * (1 - t) else a + diff_b_a * t.

(** [np.percentile(arr, q)] for a float64 array; a NaN in the data gives
    NaN. *)
Definition np_percentile (arr : list float) (q : float) : float :=
  match arr with
  | [] => nan
  | _ =>
      if existsb is_nan arr then nan
      else linear_percentile lerp nan (np_sort arr) q
  end.

(** An integer as int64 arithmetic leaves it: reduced modulo [2^64] into
    [-2^63 .. 2^63 - 1]. *)
Definition wrap64 (z : Z) : Z := ((z + 2 ^ 63) mod 2 ^ 64 - 2 ^ 63)%Z.

(** [_lerp] on int64 neighbours: [b - a] is an int64 subtraction, so it wraps
    around; the product with the float64 weight and the final sum or
    difference are float64. *)
Definition lerp_int (a b : Z) (t : float) : float :=
  let diff_b_a := wrap64 (b - a) in
  if 0.5 <=? t then of_Z b - of_Z diff_b_a * (1 - t) else of_Z a + of_Z diff_b_a * t.

(** [np.percentile(arr, q)] for an int64 array. *)
Definition np_percentile_int (arr : list Z) (q : float) : float :=
  match arr with
  | [] => nan
  | _ => linear_percentile lerp_int 0%Z (sort_by Z.leb arr) q
  end.

(** *** Decimal rounding, as a relation *)

(** [k] is [num / den] rounded to the nearest integer, a tie going to the
    even neighbour ([0 < den]). *)
Definition nearest_even (num den k : Z) : Prop :=
  (2 * Z.abs (num - k * den) <= den)%Z /\
  ((2 * Z.abs (num - k * den) = den)%Z -> Z.even k = true).

(** The binary64 value nearest to [± k / 10^ndigits] for [0 <= k]. *)
Definition decimal_float (negative : bool) (k : Z) (ndigits : Z) : float :=
  match k with
  | Z.pos n =>
      SF2Prim (SFdiv prec emax (S754_finite negative n 0)
                     (S754_finite false (Z.to_pos (10 ^ ndigits)) 0))
  | _ => if negative then neg_zero else zero
  end.

(** [y] is [x] rounded to [ndigits] decimals: for a finite [x = ± m * 2^e],
    [y] is the binary64 value nearest to [± k / 10^ndigits], where [k] is the
    integer nearest to [m * 2^e * 10^ndigits], ties to even; NaN and the
    infinities are their own roundings. *)
Definition rounded_to (ndigits : Z) (x y : float) : Prop :=
  match Prim2SF x with
  | S754_finite s m e =>
      exists k : Z,
        nearest_even (Z.pos m * 10 ^ ndigits * 2 ^ Z.max e 0) (2 ^ Z.max (- e) 0) k /\
        y = decimal_float s k ndigits
  | _ => y = x
  end.

End Num.

(* ===================================================================== *)
(** * Exceptions and outcomes *)
(* ===================================================================== *)

Inductive exn : Type :=
| HTTPException (status_code : Z) (detail : string)
| KeyError (key : string)
| TypeError (message : string)
| InvalidReference (address : nat).

Inductive outcome (A : Type) : Type :=
| Return (a : A)
| Raise (e : exn).
Arguments Return {A} a.
Arguments Raise {A} e.

Definition obind {A B} (o : outcome A) (k : A -> outcome B) : outcome B :=
  match o with
  | Return a => k a
  | Raise e => Raise e
  end.

Declare Scope outcome_scope.
Delimit Scope outcome_scope with outcome.
Notation "'try' x := o 'in' k" := (obind o (fun x => k))
  (at level 10, x name, o at level 100, k at level 200)
  : outcome_scope.

(* ===================================================================== *)
(** * The pandas fragment *)
(* ===================================================================== *)

Module Pd.

Import Num.
Local Open Scope float_scope.

(** A cell of an [object] column as [read_csv] produces it: a [str], or the
    float NaN that stands for a missing value. *)
Inductive pyobj : Type :=
| PStr (s : string)
| PNaN.

(** A column with its dtype. *)
Inductive Series : Type :=
| Int64 (values : list Z)
| Float64 (values : list float)
| Object (values : list pyobj).

(** A frame: the length of its index and its columns in table order. *)
Record DataFrame : Type := mkFrame {
  index_len : nat;
  data : list (string * Series)
}.

Definition columns (df : DataFrame) : list string := map fst (data df).

(** [s.dtype == object] *)
Definition is_object (s : Series) : bool :=
  match s with Object _ => true | _ => false end.

(** [df[key]] *)
Definition getitem (df : DataFrame) (key : string) : outcome Series :=
  match List.find (fun kv => String.eqb (fst kv) key) (data df) with
  | Some kv => Return (snd kv)
  | None => Raise (KeyError key)
  end.

(** [df[key] = s]: an existing column is replaced in place, a new one is
    appended. *)
Definition setitem (df : DataFrame) (key : string) (s : Series) : DataFrame :=
  if existsb (String.eqb key) (columns df)
  then mkFrame (index_len df)
         (map (fun kv => if String.eqb (fst kv) key then (fst kv, s) else kv) (data df))
  else mkFrame (index_len df) (data df ++ [(key, s)])%list.

(** [df.empty]: some axis has length zero. *)
Definition empty (df : DataFrame) : bool :=
  (index_len df =? 0)%nat || (length (data df) =? 0)%nat.

(** Selection by a boolean mask. *)
Fixpoint mask_list {A : Type} (mask : list bool) (l : list A) : list A :=
  match mask, l with
  | b :: mask', x :: l' => if b then x :: mask_list mask' l' else mask_list mask' l'
  | _, _ => []
  end.

Definition mask_series (mask : list bool) (s : Series) : Series :=
  match s with
  | Int64 v => Int64 (mask_list mask v)
  | Float64 v => Float64 (mask_list mask v)
  | Object v => Object (mask_list mask v)
  end.

Definition count_true (mask : list bool) : nat := length (List.filter id mask).

(** [df[mask]] *)
Definition mask_rows (mask : list bool) (df : DataFrame) : DataFrame :=
  mkFrame (count_true mask)
    (map (fun kv => (fst kv, mask_series mask (snd kv))) (data df)).

(** [s == key] for a [str] key, element by element. *)
Definition eq_scalar (s : Series) (key : string) : list bool :=
  match s with
  | Object v =>
      map (fun o => match o with PStr t => String.eqb t key | PNaN => false end) v
  | Int64 v => map (fun _ => false) v
  | Float64 v => map (fun _ => false) v
  end.

(** A missing cell of an [object] column. *)
Definition missing (o : pyobj) : bool :=
  match o with PNaN => true | PStr _ => false end.

(** The values of a column as float64 operands.  An [object] column whose
    cells are all missing holds NaN floats only; arithmetic on a [str] cell
    raises. *)
Definition float_values (s : Series) : outcome (list float) :=
  match s with
  | Int64 v => Return (map of_Z v)
  | Float64 v => Return v
  | Object v =>
      if forallb missing v then Return (map (fun _ => nan) v)
      else Raise (TypeError "unsupported operand type(s): str")
  end.

Definition notna (l : list float) : list float := List.filter (fun v => negb (is_nan v)) l.

(** [nanmean] on float64 values: NaN counts as [0] in the sum and is left out
    of the count; NaN when nothing is left. *)
Definition nanmean (l : list float) : float :=
  match notna l with
  | [] => nan
  | kept => np_sum (map (fun v => if is_nan v then 0 else v) l)
            / of_Z (Z.of_nat (length kept))
  end.

(** [nanmean] on int64 values: the sum is taken with [dtype=float64], the
    count is the number of values that are not NaN, which for integers is
    every one of them. *)
Definition nanmean_int (v : list Z) : float :=
  match notna (map of_Z v) with
  | [] => nan
  | kept => np_sum_cast v / of_Z (Z.of_nat (length kept))
  end.

(** [s.mean()] *)
Definition mean (s : Series) : outcome float :=
  match s with
  | Int64 v => Return (nanmean_int v)
  | _ => (try v := float_values s in Return (nanmean v))%outcome
  end.

(** [s.quantile(q)] on float64 values: the missing values are dropped, then
    [np.percentile(values, q * 100)]. *)
Definition nanquantile (l : list float) (q : float) : float :=
  match notna l with
  | [] => nan
  | kept => np_percentile kept (q * 100)
  end.

(** [s.quantile(q)]: an int64 column is handed to [np.percentile] as it
    is. *)
Definition quantile (s : Series) (q : float) : outcome float :=
  match s with
  | Int64 v => Return (np_percentile_int v (q * 100))
  | _ => (try v := float_values s in Return (nanquantile v q))%outcome
  end.

(** [np.percentile(s, q)] on a column. *)
Definition percentile (s : Series) (q : float) : outcome float :=
  match s with
  | Int64 v => Return (np_percentile_int v q)
  | _ => (try v := float_values s in Return (np_percentile v q))%outcome
  end.

(** [s > threshold] *)
Definition gt_scalar (s : Series) (threshold : float) : outcome (list bool) :=
  (try v := float_values s in Return (map (fun x => threshold <? x) v))%outcome.

(** [mask.sum()] *)
Definition sum_bool (mask : list bool) : Z := Z.of_nat (count_true mask).

Section Conversions.

(** Two conversions between text and binary64 are left open: the number
    parser of [pd.to_numeric] ([None] when the text is not a number) and
    Python's [str] of a float. *)
Variable floatify : string -> option float.
Variable float_str : float -> string.

(** [pd.to_numeric(s, errors="coerce")]: a numeric column is returned as it
    is; in an [object] column every cell that does not parse becomes NaN. *)
Definition to_numeric (s : Series) : Series :=
  match s with
  | Object v =>
      Float64 (map (fun o => match o with
                             | PStr t => default nan (floatify t)
                             | PNaN => nan
                             end) v)
  | _ => s
  end.

(** [s.astype(str)], as the list of the resulting strings. *)
Definition astype_str (s : Series) : list string :=
  match s with
  | Int64 v => map pretty v
  | Float64 v => map float_str v
  | Object v => map (fun o => match o with PStr t => t | PNaN => "nan" end) v
  end.

End Conversions.

Definition of_strings (l : list string) : Series := Object (map PStr l).

End Pd.

(* ===================================================================== *)
(** * [app.py]: the store, the module globals and [latency_check] *)
(* ===================================================================== *)

Module App.

Import Pd Num.
Local Open Scope float_scope.

(** The data frames alive in the process, addressed by position.  A frame is
    a mutable object: [df[c] = s] changes the frame stored at [df]'s address,
    and every name bound to that address sees the change. *)
Definition Store : Type := list DataFrame.

(** Computations that read and write the store and may raise. *)
Definition M (A : Type) : Type := Store -> outcome A * Store.

Definition ret {A} (a : A) : M A := fun h => (Return a, h).
Definition raise {A} (e : exn) : M A := fun h => (Raise e, h).
Definition lift {A} (o : outcome A) : M A := fun h => (o, h).
Definition bind {A B} (m : M A) (k : A -> M B) : M B :=
  fun h =>
    match m h with
    | (Return a, h') => k a h'
    | (Raise e, h') => (Raise e, h')
    end.

Notation "x <- m ;; k" := (bind m (fun x => k))
  (at level 100, m at next level, right associativity).
Notation "m ;; k" := (bind m (fun _ => k))
  (at level 100, right associativity).

(** The frame stored at an address. *)
Definition read (l : nat) : M DataFrame :=
  fun h =>
    match h !! l with
    | Some df => (Return df, h)
    | None => (Raise (InvalidReference l), h)
    end.

(** [df.copy()]: a new frame with the same content, at a fresh address. *)
Definition copy (l : nat) : M nat :=
  fun h =>
    match h !! l with
    | Some df => (Return (length h), (h ++ [df])%list)
    | None => (Raise (InvalidReference l), h)
    end.

(** [df[key]] and [df[key] = s] on the frame at address [l]. *)
Definition frame_getitem (l : nat) (key : string) : M Series :=
  df <- read l ;; lift (getitem df key).

Definition frame_setitem (l : nat) (key : string) (s : Series) : M unit :=
  fun h =>
    match h !! l with
    | Some df => (Return tt, <[l := setitem df key s]> h)
    | None => (Raise (InvalidReference l), h)
    end.

(** [_find_column(df, candidates)]: only the column names of [df] are used. *)
Definition _find_column (df : DataFrame) (candidates : list string) : option string :=
  find_column_names (columns df) candidates.

(** A [for] loop over a list that threads an accumulator. *)
Fixpoint for_each {A S : Type} (body : S -> A -> M S) (l : list A) (s : S) : M S :=
  match l with
  | [] => ret s
  | x :: l' => s' <- body s x ;; for_each body l' s'
  end.

(** The module-level names [_df] and [_load_error]. *)
Record Globals : Type := mkGlobals {
  _df : option nat;
  _load_error : option string
}.

(** Module start-up: [pd.read_csv] either raises (with the text of the
    exception) or returns the table. *)
Definition startup (read_csv : string + DataFrame) : Globals * Store :=
  match read_csv with
  | inr table => (mkGlobals (Some 0%nat) None, [table])
  | inl e => (mkGlobals None (Some e), [])
  end.

(** [Payload] *)
Record Payload : Type := mkPayload {
  regions : list string;
  threshold_ms : float
}.

(** One entry of the response; [None] is JSON [null]. *)
Record Metrics : Type := mkMetrics {
  avg_latency : option float;
  p95_latency : option float;
  avg_uptime : option float;
  breaches : Z
}.

Definition no_data : Metrics := mkMetrics None None None 0.

(** An f-string field holding [None] or a [str]. *)
Definition format_field (o : option string) : string := default "None" o.

Definition not_loaded (g : Globals) : exn :=
  HTTPException 500 ("Telemetry CSV not loaded: " +:+ format_field (_load_error g)).

Definition no_latency_column : exn :=
  HTTPException 400
    "Could not detect latency column (expected names: latency_ms, latency, rtt, ping_ms)".

Definition no_region_column : exn :=
  HTTPException 400
    "Could not detect region column (expected names: region, region_name, area)".

(** The column names an error detail lists between [expected names:] and the
    closing parenthesis. *)
Definition listed_names (detail : string) : list string :=
  match after_marker "expected names: " detail with
  | Some rest => map strip (split_on "," (until_char ")" rest))
  | None => []
  end.

(** [str(region).strip().lower()] *)
Definition region_key_of (region : string) : string := lower (strip region).

Section Endpoint.

Variable floatify : string -> option float.
Variable float_str : float -> string.

(** The normalized region column (app.py lines 72-76). *)
Definition region_norm (r : Series) : Series :=
  if is_object r
  then of_strings (map (fun t => lower (strip t)) (astype_str float_str r))
  else of_strings (astype_str float_str r).

(** The body of the loop over [payload.regions] (lines 80-112). *)
Definition region_step (df : nat) (latency_col : string)
    (uptime_col : option string) (payload : Payload)
    (out : gmap string Metrics) (region : string) : M (gmap string Metrics) :=
  let region_key := region_key_of region in
  norm <- frame_getitem df "_region_norm" ;;
  frame <- read df ;;
  let region_df := mask_rows (eq_scalar norm region_key) frame in
  if empty region_df then ret (<[region := no_data]> out)
  else
    lat <- lift (getitem region_df latency_col) ;;
    avg_latency <- lift (mean lat) ;;
    p95_latency <- lift (quantile lat 0.95) ;;
    avg_uptime <-
      match uptime_col with
      | Some uptime_col =>
          up <- lift (getitem region_df uptime_col) ;;
          avg_uptime_raw <- lift (mean up) ;;
          if 1.5 <? avg_uptime_raw
          then ret (Some (avg_uptime_raw / 100))
          else ret (Some avg_uptime_raw)
      | None => ret None
      end ;;
    lat' <- lift (getitem region_df latency_col) ;;
    over <- lift (gt_scalar lat' (threshold_ms payload)) ;;
    let breaches := sum_bool over in
    ret (<[region := mkMetrics (Some (py_round avg_latency 3))
                               (Some (py_round p95_latency 3))
                               (option_map (fun u => py_round u 6) avg_uptime)
                               breaches]> out).

(** [latency_check(payload)] *)
Definition latency_check (g : Globals) (payload : Payload)
  : M (gmap string Metrics) :=
  match _df g with
  | None => raise (not_loaded g)
  | Some loaded =>
      df <- copy loaded ;;
      frame <- read df ;;
      let latency_col := _find_column frame latency_candidates in
      let region_col := _find_column frame region_candidates in
      let uptime_col := _find_column frame uptime_candidates in
      match latency_col with
      | None => raise no_latency_column
      | Some latency_col =>
          match region_col with
          | None => raise no_region_column
          | Some region_col =>
              s <- frame_getitem df latency_col ;;
              frame_setitem df latency_col (to_numeric floatify s) ;;
              match uptime_col with
              | Some uptime_col =>
                  u <- frame_getitem df uptime_col ;;
                  frame_setitem df uptime_col (to_numeric floatify u)
              | None => ret tt
              end ;;
              r <- frame_getitem df region_col ;;
              frame_setitem df "_region_norm" (region_norm r) ;;
              for_each (region_step df latency_col uptime_col payload)
                       (regions payload) ∅
          end
      end
  end.

End Endpoint.

End App.

(* ===================================================================== *)
(** * [api/app.py]: [check_latency] *)
(* ===================================================================== *)

Module Api.

Import Pd Num App.
Local Open Scope float_scope.

(** The JSON body: either key may be absent. *)
Record Body : Type := mkBody {
  body_regions : option (list string);
  body_threshold_ms : option float
}.

(** A [for] loop whose body may raise. *)
Fixpoint for_each_region {S : Type} (body : S -> string -> outcome S)
    (l : list string) (s : S) : outcome S :=
  match l with
  | [] => Return s
  | x :: l' => obind (body s x) (for_each_region body l')
  end.

(** The loop body of [check_latency] (lines 29-43); [continue] leaves
    [result] as it is. *)
Definition check_region (telemetry : DataFrame) (threshold : float)
    (result : gmap string Metrics) (region : string)
  : outcome (gmap string Metrics) :=
  (try col := getitem telemetry "region" in
   let df := mask_rows (eq_scalar col region) telemetry in
   if empty df then Return result
   else
     try lat := getitem df "latency_ms" in
     try avg_latency := mean lat in
     try p95_latency := percentile lat 95 in
     try up := getitem df "uptime" in
     try avg_uptime := mean up in
     try over := gt_scalar lat threshold in
     let breaches := sum_bool over in
     Return (<[region := mkMetrics (Some (np_round avg_latency 2))
                                   (Some (np_round p95_latency 2))
                                   (Some (np_round avg_uptime 3))
                                   breaches]> result))%outcome.

(** [check_latency(request)] over the table read at import time. *)
Definition check_latency (telemetry : DataFrame) (body : Body)
  : outcome (gmap string Metrics) :=
  let regions := default [] (body_regions body) in
  let threshold := default 180 (body_threshold_ms body) in
  for_each_region (check_region telemetry threshold) regions ∅.

End Api.

(* ===================================================================== *)
(** * Sample data *)
(* ===================================================================== *)

Module Samples.

Import Pd Num App.
Local Open Scope float_scope.

(** A number parser that knows unsigned decimal integers only. *)
Fixpoint digits_value (s : string) (acc : Z) : option Z :=
  match s with
  | EmptyString => Some acc
  | String c s' =>
      let n := nat_of_ascii c in
      if (48 <=? n)%nat && (n <=? 57)%nat
      then digits_value s' (10 * acc + Z.of_nat (n - 48))
      else None
  end.

Definition floatify_digits (s : string) : option float :=
  match s with
  | EmptyString => None
  | _ => option_map of_Z (digits_value s 0%Z)
  end.

(** [str] on NaN and on the integral floats below [10^16]; the empty string
    elsewhere. *)
Definition float_str_integral (x : float) : string :=
  if is_nan x then "nan"
  else if (np_rint x =? x) && (abs x <? 1e16)
       then pretty (floor_Z x) +:+ ".0"
       else "".

(** The two-row table of the end-to-end scenario. *)
Definition us_east_table : DataFrame :=
  mkFrame 2
    [ ("region", Object [PStr "US-East "; PStr "us-east"]);
      ("latency_ms", Int64 [100; 300]%Z);
      ("uptime", Float64 [0.99; 99]) ].

(** Five samples of one region. *)
Definition five_table : DataFrame :=
  mkFrame 5
    [ ("region", Object [PStr "eu"; PStr "eu"; PStr "eu"; PStr "eu"; PStr "eu"]);
      ("latency_ms", Int64 [10; 20; 30; 40; 50]%Z) ].

(** The five samples of [five_table] in another order. *)
Definition shuffled_table : DataFrame :=
  mkFrame 5
    [ ("region", Object [PStr "eu"; PStr "eu"; PStr "eu"; PStr "eu"; PStr "eu"]);
      ("latency_ms", Int64 [50; 10; 30; 20; 40]%Z) ].

(** Nine uptime percentages of one region. *)
Definition nine_table : DataFrame :=
  mkFrame 9
    [ ("region", Object [PStr "eu"; PStr "eu"; PStr "eu"; PStr "eu"; PStr "eu";
                         PStr "eu"; PStr "eu"; PStr "eu"; PStr "eu"]);
      ("latency_ms", Float64 [10.5; 20.25; 30; 40; 50; 60; 70; 80; 90]);
      ("uptime", Float64 [99.9; 99.5; 98.7; 99.99; 97.3; 99.1; 99.95; 96.4; 99.8]) ].

(** A table without any latency or region column. *)
Definition unknown_table : DataFrame :=
  mkFrame 1
    [ ("timestamp", Object [PStr "2024-01-01"]);
      ("value", Float64 [1.5]) ].

(** A latency column in which one cell is not a number. *)
Definition noisy_table : DataFrame :=
  mkFrame 3
    [ ("Region", Object [PStr "apac"; PStr "APAC"; PStr "emea"]);
      ("Latency", Object [PStr "150"; PStr "timeout"; PStr "lost"]) ].

(** The globals after a successful load: the table sits at address 0. *)
Definition loaded : Globals := mkGlobals (Some 0%nat) None.

Definition run_query (table : DataFrame) (payload : Payload)
  : outcome (gmap string Metrics) * Store :=
  let '(g, h) := startup (inr table) in
  latency_check floatify_digits float_str_integral g payload h.

End Samples.

(* ===================================================================== *)
(** * What a query reads off the table *)
(* ===================================================================== *)

(** The quantities the statements below speak about, as functions of the
    loaded table: the resolved columns, the coerced latency and uptime values
    of all rows, the normalized region key of every row, and the rows a
    requested region selects. *)

Module Reading.

Import Pd Num App.
Local Open Scope float_scope.

Definition latency_col_of (table : DataFrame) : option string :=
  _find_column table latency_candidates.
Definition region_col_of (table : DataFrame) : option string :=
  _find_column table region_candidates.
Definition uptime_col_of (table : DataFrame) : option string :=
  _find_column table uptime_candidates.

(** The column under a name (an empty column when there is none). *)
Definition column (df : DataFrame) (key : string) : Series :=
  match getitem df key with
  | Return s => s
  | Raise _ => Object []
  end.

Definition floats_of (s : Series) : list float :=
  match float_values s with
  | Return v => v
  | Raise _ => []
  end.

(** Mean and quantile of a numeric column, as values (NaN where the
    operation raises). *)
Definition mean_of (s : Series) : float :=
  match mean s with
  | Return x => x
  | Raise _ => nan
  end.

Definition quantile_of (s : Series) (q : float) : float :=
  match quantile s q with
  | Return x => x
  | Raise _ => nan
  end.


Definition strings_of (s : Series) : list string :=
  match s with
  | Object v => map (fun o => match o with PStr t => t | PNaN => "nan" end) v
  | _ => []
  end.

Section Views.

Variable floatify : string -> option float.
Variable float_str : float -> string.

(** [df[key] = pd.to_numeric(df[key], errors="coerce")] *)
Definition coerce (df : DataFrame) (key : string) : DataFrame :=
  setitem df key (to_numeric floatify (column df key)).

(** The copy after both coercions. *)
Definition coerced_frame (table : DataFrame) : DataFrame :=
  match latency_col_of table with
  | Some lc =>
      match uptime_col_of table with
      | Some uc => coerce (coerce table lc) uc
      | None => coerce table lc
      end
  | None => table
  end.

(** The copy as the loop over the regions finds it. *)
Definition working_frame (table : DataFrame) : DataFrame :=
  match latency_col_of table, region_col_of table with
  | Some _, Some rc =>
      setitem (coerced_frame table) "_region_norm"
        (region_norm float_str (column (coerced_frame table) rc))
  | _, _ => table
  end.

(** The coerced latency column. *)
Definition latency_series (table : DataFrame) : Series :=
  match latency_col_of table with
  | Some lc => to_numeric floatify (column table lc)
  | None => Float64 []
  end.

(** The coerced uptime column, when an uptime column was resolved. *)
Definition uptime_series (table : DataFrame) : option Series :=
  option_map (fun uc => to_numeric floatify (column table uc)) (uptime_col_of table).

(** Coerced latency of every row. *)
Definition latency_values (table : DataFrame) : list float :=
  match latency_col_of table with
  | Some lc => floats_of (to_numeric floatify (column table lc))
  | None => []
  end.

(** Normalized region key of every row. *)
Definition region_keys (table : DataFrame) : list string :=
  strings_of (column (working_frame table) "_region_norm").

(** Which rows a requested region selects. *)
Definition row_mask (table : DataFrame) (region : string) : list bool :=
  map (fun k => String.eqb k (region_key_of region)) (region_keys table).

(** The cells of the selected rows. *)
Definition selected {A : Type} (table : DataFrame) (region : string)
    (cells : list A) : list A :=
  mask_list (row_mask table region) cells.

(** The selected rows of a column. *)
Definition selected_rows (table : DataFrame) (region : string) (s : Series)
  : Series :=
  mask_series (row_mask table region) s.

(** Number of selected rows. *)
Definition matches (table : DataFrame) (region : string) : nat :=
  count_true (row_mask table region).

Definition uptime_scaled (raw : float) : float :=
  if 1.5 <? raw then raw / 100 else raw.

(** The response entry of a region. *)
Definition entry (table : DataFrame) (threshold : float) (region : string)
  : Metrics :=
  if (matches table region =? 0)%nat then no_data
  else
    let lat := selected_rows table region (latency_series table) in
    mkMetrics
      (Some (py_round (mean_of lat) 3))
      (Some (py_round (quantile_of lat 0.95) 3))
      (option_map
         (fun up => py_round (uptime_scaled (mean_of (selected_rows table region up))) 6)
         (uptime_series table))
      (sum_bool (map (fun x => threshold <? x)
                     (selected table region (latency_values table)))).

Definition response (table : DataFrame) (payload : Payload)
  : gmap string Metrics :=
  foldl (fun out region => <[region := entry table (threshold_ms payload) region]> out)
        ∅ (regions payload).

(** The outcome of a query against a loaded table. *)
Definition answer (table : DataFrame) (payload : Payload)
  : outcome (gmap string Metrics) :=
  match latency_col_of table, region_col_of table with
  | None, _ => Raise no_latency_column
  | Some _, None => Raise no_region_column
  | Some _, Some _ => Return (response table payload)
  end.

End Views.

End Reading.

(* ===================================================================== *)
(** * What [check_latency] reads off the table *)
(* ===================================================================== *)

Module ApiReading.

Import Pd Num App.
Local Open Scope float_scope.

(** What [check_latency] computes for a region that selects the rows [mask]:
    the columns [latency_ms] and [uptime] are looked up by these very names,
    the means and the percentile are taken over the selected rows and rounded
    to 2, 2 and 3 decimals. *)
Definition api_entry (telemetry : DataFrame) (threshold : float)
    (mask : list bool) : outcome Metrics :=
  (try lat := getitem telemetry "latency_ms" in
   try avg_latency := mean (mask_series mask lat) in
   try p95_latency := percentile (mask_series mask lat) 95 in
   try up := getitem telemetry "uptime" in
   try avg_uptime := mean (mask_series mask up) in
   try over := gt_scalar (mask_series mask lat) threshold in
   Return (mkMetrics (Some (np_round avg_latency 2))
                     (Some (np_round p95_latency 2))
                     (Some (np_round avg_uptime 3))
                     (sum_bool over)))%outcome.

(** The regions and the threshold of a body, with the defaults of
    [body.get]. *)
Definition regions_of (body : Api.Body) : list string :=
  default [] (Api.body_regions body).

End ApiReading.

(* ===================================================================== *)
(** * More sample data *)
(* ===================================================================== *)

Module MoreSamples.

Import Pd Num App.
Local Open Scope float_scope.

(** A table with a missing region cell and a missing latency. *)
Definition gappy_table : DataFrame :=
  mkFrame 3
    [ ("region", Object [PStr "eu"; PNaN; PStr " EU "]);
      ("latency_ms", Float64 [10; 20; nan]) ].

(** A table that has a region column and nothing else. *)
Definition bare_table : DataFrame :=
  mkFrame 1 [ ("region", Object [PStr "eu"]) ].

End MoreSamples.

(* ===================================================================== *)
(** * Proofs *)
(* ===================================================================== *)

Import Pd Num App Reading Samples.
Local Close Scope Z_scope.

(** ** Strings and the two passes of the resolver *)

Section StringFacts.

Lemma prefix_refl (s : string) : String.prefix s s = true.
Proof.
  induction s as [|c s IH]; simpl; [reflexivity|].
  destruct (ascii_dec c c); [assumption|congruence].
Qed.

Lemma contains_refl (s : string) : contains s s = true.
Proof. destruct s; simpl; [reflexivity|]. rewrite prefix_refl. destruct (ascii_dec a a); [reflexivity|congruence]. Qed.

End StringFacts.

Section Resolver.

Implicit Types (columns candidates : list string) (m : gmap string string).

Lemma lower_dict_snoc columns c :
  lower_dict (columns ++ [c]) = <[lower c := c]> (lower_dict columns).
Proof. unfold lower_dict. rewrite foldl_app. reflexivity. Qed.

Lemma lower_dict_sound columns k c :
  lower_dict columns !! k = Some c -> c ∈ columns /\ lower c = k.
Proof.
  induction columns as [|x xs IH] using rev_ind.
  - unfold lower_dict; simpl. rewrite lookup_empty. discriminate.
  - rewrite lower_dict_snoc. intros H.
    destruct (decide (lower x = k)) as [E|N].
    + rewrite <- E, lookup_insert_eq in H. injection H as <-.
      split; [apply elem_of_app; right; apply list_elem_of_singleton; reflexivity|assumption].
    + rewrite lookup_insert_ne in H by assumption.
      destruct (IH H) as [? ?]. split; [apply elem_of_app; left; assumption|assumption].
Qed.

Lemma lower_dict_complete columns c :
  c ∈ columns -> is_Some (lower_dict columns !! lower c).
Proof.
  induction columns as [|x xs IH] using rev_ind.
  - intros H. inversion H.
  - rewrite lower_dict_snoc. intros H.
    destruct (decide (lower x = lower c)) as [E|N].
    + rewrite E, lookup_insert_eq. eauto.
    + rewrite lookup_insert_ne by assumption. apply IH.
      apply elem_of_app in H as [H|H]; [assumption|].
      apply list_elem_of_singleton in H. subst. congruence.
Qed.

Lemma find_exact_None m candidates :
  find_exact m candidates = None <-> forall cand, cand ∈ candidates -> m !! cand = None.
Proof.
  induction candidates as [|a l IH]; simpl.
  - split; [intros _ cand H; inversion H|reflexivity].
  - destruct (m !! a) eqn:E.
    + split; [discriminate|]. intros H. specialize (H a (list_elem_of_here _ _)). congruence.
    + rewrite IH. split.
      * intros H cand Hc. apply elem_of_cons in Hc as [->|Hc]; auto.
      * intros H cand Hc. apply H. apply elem_of_cons. auto.
Qed.

(** The first loop returns the column of the first candidate that is a key. *)
Lemma find_exact_Some m candidates c :
  find_exact m candidates = Some c ->
  exists before cand after,
    candidates = (before ++ cand :: after)%list /\ m !! cand = Some c /\
    forall b, b ∈ before -> m !! b = None.
Proof.
  induction candidates as [|a l IH]; simpl; [discriminate|].
  destruct (m !! a) eqn:E.
  - intros [= <-]. exists [], a, l. split; [reflexivity|]. split; [assumption|].
    intros b Hb. inversion Hb.
  - intros H. destruct (IH H) as (before & cand & after & -> & Hc & Hb).
    exists (a :: before), cand, after. split; [reflexivity|]. split; [assumption|].
    intros b Hin. apply elem_of_cons in Hin as [->|Hin]; auto.
Qed.

Lemma find_substring_Some columns candidates c :
  find_substring columns candidates = Some c <->
  exists before after,
    columns = (before ++ c :: after)%list /\
    existsb (fun cand => contains cand (lower c)) candidates = true /\
    forall b, b ∈ before ->
      existsb (fun cand => contains cand (lower b)) candidates = false.
Proof.
  induction columns as [|x xs IH]; simpl.
  - split; [discriminate|]. intros (before & after & H & _). destruct before; discriminate.
  - destruct (existsb (fun cand => contains cand (lower x)) candidates) eqn:E.
    + split.
      * intros H. injection H as H. subst c. exists [], xs.
        split; [reflexivity|]. split; [assumption|].
        intros b Hb. inversion Hb.
      * intros (before & after & H & Hc & Hb). destruct before as [|b0 before].
        -- simpl in H. congruence.
        -- simpl in H. injection H as <- _. 
           rewrite (Hb x) in E; [discriminate|apply list_elem_of_here].
    + rewrite IH. split.
      * intros (before & after & -> & Hc & Hb). exists (x :: before), after.
        split; [reflexivity|]. split; [assumption|].
        intros b Hin. apply elem_of_cons in Hin as [->|Hin]; auto.
      * intros (before & after & H & Hc & Hb). destruct before as [|b0 before].
        -- simpl in H. injection H as -> _. congruence.
        -- simpl in H. injection H as <- ->. exists before, after.
           split; [reflexivity|]. split; [assumption|].
           intros b Hin. apply Hb. apply elem_of_cons. auto.
Qed.

(** Whatever the resolver returns is a column, and some candidate occurs in
    its lowercased name. *)
Lemma find_column_names_Some columns candidates c :
  find_column_names columns candidates = Some c ->
  c ∈ columns /\ existsb (fun cand => contains cand (lower c)) candidates = true.
Proof.
  unfold find_column_names. destruct (find_exact _ _) as [c'|] eqn:E.
  - intros [= <-]. apply find_exact_Some in E as (before & cand & after & -> & Hc & _).
    apply lower_dict_sound in Hc as [Hin Hl]. split; [assumption|].
    apply existsb_exists. exists cand. split.
    + apply in_or_app. right. left. reflexivity.
    + rewrite Hl. apply contains_refl.
  - intros H. apply find_substring_Some in H as (before & after & -> & Hc & _).
    split; [|assumption]. apply elem_of_app. right. apply list_elem_of_here.
Qed.

End Resolver.

(** ** Order on binary64 *)

Local Open Scope float_scope.

Section FloatOrder.

Lemma SFcompare_antisym (x y : spec_float) :
  SFcompare y x = option_map CompOpp (SFcompare x y).
Proof.
  destruct x as [sx|sx| |sx mx ex], y as [sy|sy| |sy my ey]; simpl;
    try destruct sx; try destruct sy; try reflexivity;
    rewrite (Z.compare_antisym ex ey); destruct (ex ?= ey)%Z; simpl; try reflexivity;
    rewrite (Pos.compare_cont_antisym mx my Eq); simpl;
    try rewrite CompOpp_involutive; reflexivity.
Qed.

Lemma SFcompare_refl (x : spec_float) :
  x <> S754_nan -> SFcompare x x = Some Eq.
Proof.
  destruct x as [s|s| |s m e]; simpl; intros H; try congruence;
    destruct s; try reflexivity;
    rewrite Z.compare_refl, Pos.compare_cont_refl; reflexivity.
Qed.

Lemma SFcompare_nan_r (x : spec_float) : SFcompare x S754_nan = None.
Proof. destruct x as [s|s| |s m e]; reflexivity. Qed.

(** [x < x] never holds. *)
Lemma ltb_irrefl (x : float) : (x <? x) = false.
Proof.
  rewrite FloatAxioms.ltb_spec. unfold SFltb.
  pose proof (SFcompare_antisym (Prim2SF x) (Prim2SF x)) as H.
  destruct (SFcompare (Prim2SF x) (Prim2SF x)) as [[]|]; simpl in H; congruence.
Qed.

(** [x <= y] excludes [y < x]. *)
Lemma leb_not_ltb (x y : float) : (x <=? y) = true -> (y <? x) = false.
Proof.
  rewrite FloatAxioms.leb_spec, FloatAxioms.ltb_spec. unfold SFleb, SFltb.
  rewrite (SFcompare_antisym (Prim2SF x) (Prim2SF y)).
  destruct (SFcompare (Prim2SF x) (Prim2SF y)) as [[]|]; simpl; congruence.
Qed.

(** Nothing is below NaN. *)
Lemma ltb_nan_r (t v : float) : is_nan v = true -> (t <? v) = false.
Proof.
  unfold is_nan. rewrite FloatAxioms.eqb_spec, FloatAxioms.ltb_spec. unfold SFeqb, SFltb. intros H.
  destruct (Prim2SF v) eqn:E; try (rewrite SFcompare_refl in H by congruence; discriminate).
  rewrite SFcompare_nan_r. reflexivity.
Qed.

End FloatOrder.

Local Close Scope float_scope.

(** ** Sums *)

Section Sums.

Lemma split_point_bounds (n : nat) : 128 < n -> 0 < split_point n < n.
Proof.
  unfold split_point. intros H.
  pose proof (Nat.div_mod_eq n 2) as H2.
  pose proof (Nat.mod_upper_bound n 2 ltac:(lia)) as H3.
  pose proof (Nat.mod_upper_bound (n / 2) 8 ltac:(lia)) as H4.
  lia.
Qed.

(** The depth given to [pairwise_sum] is never used up: any two depths that
    are at least the length of the list give the same sum. *)
Lemma pairwise_sum_depth (d1 d2 : nat) (l : list float) :
  length l <= d1 -> length l <= d2 -> pairwise_sum d1 l = pairwise_sum d2 l.
Proof.
  revert d2 l. induction d1 as [|d1 IH]; intros d2 l H1 H2.
  - destruct l; [|simpl in H1; lia]. destruct d2; reflexivity.
  - destruct d2 as [|d2].
    + destruct l; [reflexivity|simpl in H2; lia].
    + simpl. destruct (128 <? length l)%nat eqn:E; [|reflexivity].
      apply Nat.ltb_lt in E. pose proof (split_point_bounds _ E) as Hs.
      f_equal; apply IH; rewrite ?length_take, ?length_drop; lia.
Qed.

(** Splitting is what [pairwise] does to more than 128 values. *)
Lemma pairwise_split (l : list float) :
  128 < length l ->
  pairwise l = (pairwise (firstn (split_point (length l)) l)
                + pairwise (skipn (split_point (length l)) l))%float.
Proof.
  intros H. unfold pairwise at 1.
  destruct (length l) as [|n] eqn:E; [lia|]. simpl. rewrite E.
  destruct (128 <? S n)%nat eqn:E'; [|apply Nat.ltb_ge in E'; lia].
  pose proof (split_point_bounds (S n) H) as Hs.
  unfold pairwise.
  f_equal; apply pairwise_sum_depth; rewrite ?length_take, ?length_drop; lia.
Qed.

(** Up to 128 values are summed in one block. *)
Lemma pairwise_block (l : list float) :
  length l <= 128 -> pairwise l = sum_block l.
Proof.
  intros H. unfold pairwise. destruct (length l) as [|n] eqn:E; [reflexivity|].
  simpl. rewrite E. destruct (128 <? S n)%nat eqn:E'; [|reflexivity].
  apply Nat.ltb_lt in E'. lia.
Qed.

(** Fewer than eight values are added from left to right. *)
Lemma np_sum_short (l : list float) :
  l <> [] -> length l < 8 ->
  np_sum l = (neg_zero + fold_left PrimFloat.add l neg_zero)%float.
Proof.
  intros Hne Hlen. unfold np_sum. destruct l as [|x l]; [contradiction|].
  rewrite pairwise_block by lia. f_equal.
  do 7 (destruct l as [|? l]; [reflexivity|]). simpl in Hlen. lia.
Qed.

(** The number of buffers given to [buffered_sum] is never used up. *)
Lemma buffered_sum_buffers (b1 b2 : nat) (acc : float) (l : list float) :
  length l <= b1 -> length l <= b2 -> buffered_sum b1 acc l = buffered_sum b2 acc l.
Proof.
  revert b2 acc l. induction b1 as [|b1 IH]; intros b2 acc l H1 H2.
  - destruct l; [|simpl in H1; lia]. destruct b2; reflexivity.
  - destruct b2 as [|b2].
    + destruct l; [reflexivity|simpl in H2; lia].
    + simpl. destruct (bufsize <? length l)%nat eqn:E; [|reflexivity].
      apply Nat.ltb_lt in E. unfold bufsize in E.
      apply IH; rewrite length_drop; unfold bufsize; lia.
Qed.

(** An int64 column that fits the buffer is summed pairwise in one go. *)
Lemma np_sum_cast_one_buffer (l : list Z) :
  l <> [] -> length l <= bufsize ->
  np_sum_cast l = (neg_zero + pairwise (map of_Z l))%float.
Proof.
  intros Hne Hlen. unfold np_sum_cast. destruct l as [|x l]; [contradiction|].
  remember (x :: l) as v. destruct (length v) as [|n] eqn:E; [subst; discriminate|].
  simpl. rewrite length_map, E.
  destruct (bufsize <? S n)%nat eqn:E'; [|reflexivity].
  apply Nat.ltb_lt in E'. lia.
Qed.

End Sums.

(** ** Sorting and the percentile *)

Section Sorting.

Context {A : Type} (leb : A -> A -> bool).

Local Abbreviation le := (fun a b => leb a b = true).





End Sorting.

Section Percentile.

Local Open Scope float_scope.













End Percentile.

(** ** Decimal rounding *)

Section Rounding.

Local Open Scope Z_scope.

Lemma round_half_even_nearest (num den : Z) :
  0 < den -> nearest_even num den (round_half_even num den).
Proof.
  intros Hden. unfold nearest_even, round_half_even.
  pose proof (Z.div_mod num den ltac:(lia)) as Hdm.
  pose proof (Z.mod_pos_bound num den Hden) as Hr.
  set (q := num / den) in *. set (r := num mod den) in *.
  destruct (Z.compare_spec (2 * r) den) as [E|L|G].
  - destruct (Z.even q) eqn:Hq.
    + split; [|intros _; exact Hq]. replace (num - q * den) with r by lia. lia.
    + split.
      * replace (num - (q + 1) * den) with (r - den) by lia. lia.
      * intros _. replace (q + 1) with (Z.succ q) by lia.
        rewrite Z.even_succ, <- Z.negb_even, Hq. reflexivity.
  - replace (num - q * den) with r by lia. split; lia.
  - replace (num - (q + 1) * den) with (r - den) by lia. split; lia.
Qed.

(** Python's [round] rounds to the nearest decimal, ties to even. *)
Lemma py_round_rounded (x : float) (ndigits : Z) :
  rounded_to ndigits x (py_round x ndigits).
Proof.
  unfold rounded_to, py_round.
  destruct (Prim2SF x) as [s|s| |s m e]; try reflexivity.
  exists (scaled_nearest m e (10 ^ ndigits)). split; [|reflexivity].
  unfold scaled_nearest. destruct (Z.leb_spec 0 e) as [He|He].
  - rewrite Z.max_l, Z.max_r by lia. simpl (2 ^ 0).
    unfold nearest_even.
    replace (Z.pos m * 10 ^ ndigits * 2 ^ e - Z.pos m * 2 ^ e * 10 ^ ndigits * 1)
      with 0 by lia.
    simpl. split; [lia|intros H; lia].
  - rewrite Z.max_r, Z.max_l by lia. rewrite Z.mul_1_r.
    apply round_half_even_nearest. apply Z.pow_pos_nonneg; lia.
Qed.

End Rounding.

(** ** Frames *)

Section Frames.

Implicit Types (df : DataFrame) (s : Series) (key : string) (mask : list bool).

Lemma find_key_map (f : string * Series -> string * Series) (l : list (string * Series)) key :
  (forall kv, fst (f kv) = fst kv) ->
  List.find (fun kv => String.eqb (fst kv) key) (map f l) =
  option_map f (List.find (fun kv => String.eqb (fst kv) key) l).
Proof.
  intros Hf. induction l as [|kv l IH]; simpl; [reflexivity|].
  rewrite Hf. destruct (String.eqb (fst kv) key); [reflexivity|exact IH].
Qed.

Lemma find_key_app (l1 l2 : list (string * Series)) key :
  List.find (fun kv => String.eqb (fst kv) key) (l1 ++ l2)%list =
  match List.find (fun kv => String.eqb (fst kv) key) l1 with
  | Some kv => Some kv
  | None => List.find (fun kv => String.eqb (fst kv) key) l2
  end.
Proof.
  induction l1 as [|kv l1 IH]; simpl; [reflexivity|].
  destruct (String.eqb (fst kv) key); [reflexivity|exact IH].
Qed.

Lemma getitem_in_columns df key :
  key ∈ columns df -> exists s, getitem df key = Return s.
Proof.
  unfold getitem, columns. destruct df as [n l]; simpl.
  induction l as [|kv l IH]; simpl; intros H.
  - inversion H.
  - destruct (String.eqb (fst kv) key) eqn:E; [eauto|].
    apply IH. apply elem_of_cons in H as [->|H]; [|assumption].
    rewrite String.eqb_refl in E. discriminate.
Qed.

Lemma getitem_Raise df key e :
  getitem df key = Raise e -> existsb (String.eqb key) (columns df) = false.
Proof.
  unfold getitem, columns. destruct df as [n l]; simpl.
  induction l as [|kv l IH]; simpl; [reflexivity|].
  rewrite (String.eqb_sym key). destruct (String.eqb (fst kv) key); [discriminate|].
  exact IH.
Qed.

Lemma getitem_Return df key s :
  getitem df key = Return s -> existsb (String.eqb key) (columns df) = true.
Proof.
  unfold getitem, columns. destruct df as [n l]; simpl.
  induction l as [|kv l IH]; simpl; [discriminate|].
  rewrite (String.eqb_sym key). destruct (String.eqb (fst kv) key); [reflexivity|].
  exact IH.
Qed.

Lemma column_getitem df key s : getitem df key = Return s -> column df key = s.
Proof. unfold column. intros ->. reflexivity. Qed.

Lemma getitem_column df key :
  key ∈ columns df -> getitem df key = Return (column df key).
Proof.
  intros H. destruct (getitem_in_columns _ _ H) as [s Hs].
  rewrite (column_getitem _ _ _ Hs). exact Hs.
Qed.

Lemma getitem_setitem_eq df key s : getitem (setitem df key s) key = Return s.
Proof.
  unfold setitem. destruct (existsb _ _) eqn:E.
  - unfold getitem; simpl.
    rewrite (find_key_map (fun kv => if String.eqb (fst kv) key then (fst kv, s) else kv))
      by (intros kv; destruct (String.eqb (fst kv) key); reflexivity).
    destruct (getitem df key) as [s0|e] eqn:G.
    + unfold getitem in G. destruct (List.find _ (data df)) as [kv|] eqn:F; [|discriminate].
      simpl. apply find_some in F as [_ F]. simpl in F. rewrite F. reflexivity.
    + apply getitem_Raise in G. congruence.
  - unfold getitem; simpl. rewrite find_key_app.
    destruct (List.find _ (data df)) as [kv|] eqn:F.
    + assert (getitem df key = Return (snd kv)) as G by (unfold getitem; rewrite F; reflexivity).
      apply getitem_Return in G. congruence.
    + simpl. rewrite String.eqb_refl. reflexivity.
Qed.

Lemma getitem_setitem_ne df key s k :
  k <> key -> getitem (setitem df key s) k = getitem df k.
Proof.
  intros N. unfold setitem. destruct (existsb _ _) eqn:E.
  - unfold getitem; simpl.
    rewrite (find_key_map (fun kv => if String.eqb (fst kv) key then (fst kv, s) else kv))
      by (intros kv; destruct (String.eqb (fst kv) key); reflexivity).
    destruct (List.find _ (data df)) as [kv|] eqn:F; simpl; [|reflexivity].
    apply find_some in F as [_ F]. simpl in F. apply String.eqb_eq in F.
    destruct (String.eqb (fst kv) key) eqn:K; [|reflexivity].
    apply String.eqb_eq in K. congruence.
  - unfold getitem; simpl. rewrite find_key_app.
    destruct (List.find _ (data df)) as [kv|] eqn:F; [reflexivity|].
    simpl. destruct (String.eqb key k) eqn:K; [|reflexivity].
    apply String.eqb_eq in K. congruence.
Qed.

Lemma setitem_not_empty df key s : (length (data (setitem df key s)) =? 0)%nat = false.
Proof.
  unfold setitem. destruct (existsb _ _) eqn:E; simpl.
  - rewrite length_map. destruct df as [n [|kv l]]; [discriminate|reflexivity].
  - rewrite length_app. simpl. apply Nat.eqb_neq. lia.
Qed.

Lemma getitem_mask_rows mask df key :
  getitem (mask_rows mask df) key =
  obind (getitem df key) (fun s => Return (mask_series mask s)).
Proof.
  unfold getitem, mask_rows; simpl.
  rewrite (find_key_map (fun kv => (fst kv, mask_series mask (snd kv)))) by reflexivity.
  destruct (List.find _ (data df)); reflexivity.
Qed.

Lemma mask_list_map {A B} (f : A -> B) mask (l : list A) :
  mask_list mask (map f l) = map f (mask_list mask l).
Proof.
  revert l. induction mask as [|b mask IH]; intros [|x l]; simpl; try reflexivity.
  destruct b; simpl; rewrite IH; reflexivity.
Qed.

Lemma forallb_mask_list {A} (f : A -> bool) mask (l : list A) :
  forallb f l = true -> forallb f (mask_list mask l) = true.
Proof.
  revert l. induction mask as [|b mask IH]; intros [|x l]; simpl; try reflexivity.
  intros H. apply andb_prop in H as [Hx Hl].
  destruct b; simpl; [rewrite Hx|]; apply IH, Hl.
Qed.

Lemma float_values_mask mask s v :
  float_values s = Return v ->
  float_values (mask_series mask s) = Return (mask_list mask v).
Proof.
  destruct s as [v0|v0|v0]; simpl.
  - intros [= <-]. rewrite mask_list_map. reflexivity.
  - intros [= <-]. reflexivity.
  - destruct (forallb missing v0) eqn:E; intros [= <-].
    rewrite (forallb_mask_list _ _ _ E), mask_list_map. reflexivity.
Qed.

(** Selecting rows keeps the dtype. *)
Lemma is_object_mask mask s : is_object (mask_series mask s) = is_object s.
Proof. destruct s; reflexivity. Qed.

(** On a numeric column the three operations of the loop return. *)
Lemma mean_numeric s : is_object s = false -> mean s = Return (mean_of s).
Proof. unfold mean_of. destruct s; simpl; [reflexivity..|discriminate]. Qed.

Lemma quantile_numeric s q :
  is_object s = false -> quantile s q = Return (quantile_of s q).
Proof. unfold quantile_of. destruct s; simpl; [reflexivity..|discriminate]. Qed.

Lemma gt_scalar_numeric s threshold :
  is_object s = false ->
  gt_scalar s threshold = Return (map (fun x => threshold <? x)%float (floats_of s)).
Proof. unfold floats_of. destruct s; simpl; [reflexivity..|discriminate]. Qed.

Lemma floats_of_mask mask s :
  is_object s = false ->
  floats_of (mask_series mask s) = mask_list mask (floats_of s).
Proof.
  unfold floats_of. destruct s; simpl; [rewrite mask_list_map|..];
    try reflexivity; discriminate.
Qed.

Lemma eq_scalar_of_strings (keys : list string) key :
  eq_scalar (of_strings keys) key = map (fun k => String.eqb k key) keys.
Proof. unfold of_strings; simpl. rewrite map_map. reflexivity. Qed.

Lemma strings_of_of_strings (keys : list string) : strings_of (of_strings keys) = keys.
Proof. unfold of_strings; simpl. rewrite map_map. apply map_id. Qed.

Section CoercionFacts.

Variable floatify : string -> option float.
Variable float_str : float -> string.

(** A coerced column is numeric. *)
Lemma is_object_to_numeric s : is_object (to_numeric floatify s) = false.
Proof. destruct s; reflexivity. Qed.

Lemma to_numeric_idem s :
  to_numeric floatify (to_numeric floatify s) = to_numeric floatify s.
Proof. destruct s; reflexivity. Qed.

Lemma region_norm_strings r :
  exists keys, region_norm float_str r = of_strings keys.
Proof. unfold region_norm. destruct (is_object r); eauto. Qed.

End CoercionFacts.

End Frames.

(** ** The store and the working copy *)

Section Store.

Implicit Types (h : Store) (d : DataFrame).

Lemma lookup_last h d : (h ++ [d])%list !! length h = Some d.
Proof. apply list_lookup_middle. reflexivity. Qed.

Lemma insert_last h d d' : <[length h := d']> (h ++ [d])%list = (h ++ [d'])%list.
Proof. induction h as [|x h IH]; simpl; [reflexivity|]. f_equal. exact IH. Qed.

Lemma lookup_old h d l : l < length h -> (h ++ [d])%list !! l = h !! l.
Proof. intros H. apply lookup_app_l. exact H. Qed.

Lemma read_last h d : read (length h) (h ++ [d])%list = (Return d, (h ++ [d])%list).
Proof. unfold read. rewrite lookup_last. reflexivity. Qed.

Lemma frame_getitem_last h d key :
  frame_getitem (length h) key (h ++ [d])%list = (getitem d key, (h ++ [d])%list).
Proof. unfold frame_getitem, bind. rewrite read_last. reflexivity. Qed.

Lemma frame_setitem_last h d key s :
  frame_setitem (length h) key s (h ++ [d])%list =
  (Return tt, (h ++ [setitem d key s])%list).
Proof. unfold frame_setitem. rewrite lookup_last, insert_last. reflexivity. Qed.

End Store.

Section WorkingCopy.

Variable floatify : string -> option float.
Variable float_str : float -> string.

Implicit Types (table : DataFrame) (h : Store) (payload : Payload).

Lemma resolved_in_columns table candidates c :
  _find_column table candidates = Some c -> c ∈ columns table.
Proof. intros H. apply find_column_names_Some in H. tauto. Qed.

Lemma latency_col_not_norm table c :
  latency_col_of table = Some c -> c <> "_region_norm".
Proof.
  intros H ->. apply find_column_names_Some in H as [_ H]. vm_compute in H. discriminate.
Qed.

Lemma uptime_col_not_norm table c :
  uptime_col_of table = Some c -> c <> "_region_norm".
Proof.
  intros H ->. apply find_column_names_Some in H as [_ H]. vm_compute in H. discriminate.
Qed.

Lemma getitem_setitem_some (df : DataFrame) key v k :
  (exists s, getitem df k = Return s) ->
  exists s, getitem (setitem df key v) k = Return s.
Proof.
  intros [s Hs]. destruct (decide (k = key)) as [->|N].
  - rewrite getitem_setitem_eq. eauto.
  - rewrite getitem_setitem_ne by assumption. eauto.
Qed.

Lemma getitem_some_column (df : DataFrame) key :
  (exists s, getitem df key = Return s) -> getitem df key = Return (column df key).
Proof. intros [s Hs]. rewrite (column_getitem _ _ _ Hs). exact Hs. Qed.

(** After the write-back, a coerced column holds the coerced cells of the
    loaded table, whether or not latency and uptime resolved to one column. *)
Lemma coerced_frame_latency table lc :
  latency_col_of table = Some lc ->
  getitem (coerced_frame floatify table) lc =
  Return (to_numeric floatify (column table lc)).
Proof.
  intros Hl. unfold coerced_frame. rewrite Hl.
  destruct (uptime_col_of table) as [uc|]; unfold coerce.
  - destruct (decide (lc = uc)) as [<-|N].
    + rewrite getitem_setitem_eq.
      rewrite (column_getitem _ _ _ (getitem_setitem_eq table lc _)).
      rewrite to_numeric_idem. reflexivity.
    + rewrite getitem_setitem_ne by assumption. apply getitem_setitem_eq.
  - apply getitem_setitem_eq.
Qed.

Lemma coerced_frame_uptime table lc uc :
  latency_col_of table = Some lc -> uptime_col_of table = Some uc ->
  getitem (coerced_frame floatify table) uc =
  Return (to_numeric floatify (column table uc)).
Proof.
  intros Hl Hu. unfold coerced_frame. rewrite Hl, Hu. unfold coerce.
  rewrite getitem_setitem_eq. f_equal.
  destruct (decide (uc = lc)) as [->|N].
  - rewrite (column_getitem _ _ _ (getitem_setitem_eq table lc _)).
    apply to_numeric_idem.
  - unfold column at 1. rewrite getitem_setitem_ne by assumption. reflexivity.
Qed.

Lemma coerced_frame_keeps table k :
  (exists s, getitem table k = Return s) ->
  exists s, getitem (coerced_frame floatify table) k = Return s.
Proof.
  intros H. unfold coerced_frame.
  destruct (latency_col_of table) as [lc|]; [|assumption].
  destruct (uptime_col_of table) as [uc|]; unfold coerce;
    repeat apply getitem_setitem_some; assumption.
Qed.

Section Working.

Variables (table : DataFrame) (lc rc : string).
Hypothesis Hlat : latency_col_of table = Some lc.
Hypothesis Hreg : region_col_of table = Some rc.

Lemma working_frame_unfold :
  working_frame floatify float_str table =
  setitem (coerced_frame floatify table) "_region_norm"
    (region_norm float_str (column (coerced_frame floatify table) rc)).
Proof. unfold working_frame. rewrite Hlat, Hreg. reflexivity. Qed.

Lemma working_frame_norm :
  getitem (working_frame floatify float_str table) "_region_norm" =
  Return (of_strings (region_keys floatify float_str table)).
Proof.
  unfold region_keys. rewrite working_frame_unfold.
  rewrite (column_getitem _ _ _ (getitem_setitem_eq _ _ _)), getitem_setitem_eq.
  destruct (region_norm_strings float_str (column (coerced_frame floatify table) rc))
    as [keys ->].
  rewrite strings_of_of_strings. reflexivity.
Qed.

Lemma working_frame_latency :
  getitem (working_frame floatify float_str table) lc =
  Return (to_numeric floatify (column table lc)).
Proof.
  rewrite working_frame_unfold.
  rewrite getitem_setitem_ne by (eapply latency_col_not_norm; eassumption).
  apply coerced_frame_latency. assumption.
Qed.

Lemma working_frame_uptime uc :
  uptime_col_of table = Some uc ->
  getitem (working_frame floatify float_str table) uc =
  Return (to_numeric floatify (column table uc)).
Proof.
  intros Hu. rewrite working_frame_unfold.
  rewrite getitem_setitem_ne by (eapply uptime_col_not_norm; eassumption).
  eapply coerced_frame_uptime; eassumption.
Qed.

Lemma working_frame_not_empty :
  (length (data (working_frame floatify float_str table)) =? 0)%nat = false.
Proof. rewrite working_frame_unfold. apply setitem_not_empty. Qed.

End Working.

End WorkingCopy.

(** ** Running the endpoint *)

Section Execution.

Variable floatify : string -> option float.
Variable float_str : float -> string.

Section Loop.

Variables (table : DataFrame) (lc rc : string).
Hypothesis Hlat : latency_col_of table = Some lc.
Hypothesis Hreg : region_col_of table = Some rc.

Local Abbreviation work := (working_frame floatify float_str table).

Lemma masked_latency (mask : list bool) :
  getitem (mask_rows mask work) lc =
  Return (mask_series mask (to_numeric floatify (column table lc))).
Proof.
  rewrite getitem_mask_rows.
  rewrite (working_frame_latency floatify float_str table lc rc Hlat Hreg).
  reflexivity.
Qed.

Lemma masked_uptime (mask : list bool) (uc : string) :
  uptime_col_of table = Some uc ->
  getitem (mask_rows mask work) uc =
  Return (mask_series mask (to_numeric floatify (column table uc))).
Proof.
  intros Hu. rewrite getitem_mask_rows.
  rewrite (working_frame_uptime floatify float_str table lc rc Hlat Hreg uc Hu).
  reflexivity.
Qed.

(** One iteration of the loop adds the entry of its region and leaves the
    store alone. *)
Lemma region_step_run (h : Store) (payload : Payload)
    (out : gmap string Metrics) (region : string) :
  region_step (length h) lc (uptime_col_of table) payload out region (h ++ [work])%list
  = (Return (<[region := entry floatify float_str table (threshold_ms payload) region]> out),
     (h ++ [work])%list).
Proof.
  unfold region_step, bind.
  rewrite frame_getitem_last.
  replace (getitem work "_region_norm")
    with (Return (A:=Series) (of_strings (region_keys floatify float_str table)))
    by (symmetry; apply (working_frame_norm floatify float_str table lc rc Hlat Hreg)).
  rewrite read_last, eq_scalar_of_strings.
  fold (row_mask floatify float_str table region).
  unfold entry, matches, empty.
  replace (length (data (mask_rows (row_mask floatify float_str table region) work)))
    with (length (data work)) by (simpl; rewrite length_map; reflexivity).
  replace ((length (data work) =? 0)%nat) with false
    by (symmetry; apply (working_frame_not_empty floatify float_str table lc rc Hlat Hreg)).
  rewrite orb_false_r.
  change (index_len (mask_rows (row_mask floatify float_str table region) work))
    with (count_true (row_mask floatify float_str table region)).
  destruct (count_true (row_mask floatify float_str table region) =? 0)%nat;
    [reflexivity|].
  unfold lift. rewrite masked_latency.
  assert (forall s, is_object (mask_series (row_mask floatify float_str table region)
                                 (to_numeric floatify s)) = false) as Hnum
    by (intros s; rewrite is_object_mask; apply is_object_to_numeric).
  rewrite (mean_numeric _ (Hnum _)), (quantile_numeric _ _ (Hnum _)).
  rewrite (gt_scalar_numeric _ _ (Hnum _)).
  rewrite floats_of_mask by apply is_object_to_numeric.
  unfold selected_rows, selected, latency_series, latency_values. rewrite Hlat.
  destruct (uptime_col_of table) as [uc|] eqn:Hu.
  - rewrite (masked_uptime _ uc Hu), (mean_numeric _ (Hnum _)).
    unfold uptime_series, uptime_scaled. rewrite Hu. simpl option_map.
    destruct (PrimFloat.ltb _ _); reflexivity.
  - unfold uptime_series. rewrite Hu. reflexivity.
Qed.

Lemma for_each_run (h : Store) (payload : Payload) (rs : list string)
    (out : gmap string Metrics) :
  for_each (region_step (length h) lc (uptime_col_of table) payload) rs out
    (h ++ [work])%list
  = (Return (foldl (fun out region =>
                      <[region := entry floatify float_str table (threshold_ms payload) region]> out)
                   out rs),
     (h ++ [work])%list).
Proof.
  revert out. induction rs as [|r rs IH]; intros out; simpl; [reflexivity|].
  unfold bind. rewrite region_step_run. apply IH.
Qed.

End Loop.

(** The whole endpoint on a store whose address [l] holds the loaded table:
    the outcome is [answer], the store gains the working copy and nothing
    else changes. *)
Lemma latency_check_run (g : Globals) (payload : Payload) (h : Store)
    (l : nat) (table : DataFrame) :
  _df g = Some l -> h !! l = Some table ->
  latency_check floatify float_str g payload h
  = (answer floatify float_str table payload,
     (h ++ [working_frame floatify float_str table])%list).
Proof.
  intros Hg Hl. unfold latency_check, answer, bind. rewrite Hg.
  unfold copy. rewrite Hl. rewrite read_last.
  fold (latency_col_of table) (region_col_of table) (uptime_col_of table).
  destruct (latency_col_of table) as [lc|] eqn:Hlat.
  2:{ unfold working_frame. rewrite Hlat. reflexivity. }
  destruct (region_col_of table) as [rc|] eqn:Hreg.
  2:{ unfold working_frame. rewrite Hlat, Hreg. reflexivity. }
  rewrite frame_getitem_last.
  rewrite (getitem_column table lc) by (eapply resolved_in_columns; eassumption).
  rewrite frame_setitem_last. fold (coerce floatify table lc).
  assert (exists s, getitem table rc = Return s) as Hrc
    by (apply getitem_in_columns; eapply resolved_in_columns; eassumption).
  apply (coerced_frame_keeps floatify) in Hrc. apply getitem_some_column in Hrc.
  match goal with
  | |- (let (_, _) := ?u in _) = _ =>
      assert (u = (Return tt, (h ++ [coerced_frame floatify table])%list)) as HU
  end.
  { unfold coerced_frame. rewrite Hlat.
    destruct (uptime_col_of table) as [uc|] eqn:Hu; [|reflexivity].
    unfold bind. rewrite frame_getitem_last.
    assert (exists s, getitem (coerce floatify table lc) uc = Return s) as Huc.
    { apply getitem_setitem_some, getitem_in_columns.
      eapply resolved_in_columns; eassumption. }
    apply getitem_some_column in Huc. rewrite Huc.
    rewrite frame_setitem_last. reflexivity. }
  rewrite HU.
  rewrite frame_getitem_last, Hrc, frame_setitem_last.
  rewrite <- (working_frame_unfold floatify float_str table lc rc Hlat Hreg).
  rewrite (for_each_run table lc rc Hlat Hreg). reflexivity.
Qed.

End Execution.

Section Keys.

Variable floatify : string -> option float.
Variable float_str : float -> string.

(** When the region column is neither the latency nor the uptime column, the
    key of a row is the text of its region cell, trimmed and lowercased for an
    [object] column and as [str] gives it for a numeric one. *)
Lemma region_keys_plain (table : DataFrame) (lc rc : string) :
  latency_col_of table = Some lc -> region_col_of table = Some rc ->
  rc <> lc -> uptime_col_of table <> Some rc ->
  region_keys floatify float_str table =
  if is_object (column table rc)
  then map region_key_of (astype_str float_str (column table rc))
  else astype_str float_str (column table rc).
Proof.
  intros Hlat Hreg Nl Nu. unfold region_keys.
  rewrite (working_frame_unfold floatify float_str table lc rc Hlat Hreg).
  rewrite (column_getitem _ _ _ (getitem_setitem_eq _ _ _)).
  assert (column (coerced_frame floatify table) rc = column table rc) as ->.
  { unfold coerced_frame, column, coerce. rewrite Hlat.
    destruct (uptime_col_of table) as [uc|].
    - rewrite !getitem_setitem_ne by congruence. reflexivity.
    - rewrite getitem_setitem_ne by congruence. reflexivity. }
  unfold region_norm, region_key_of.
  destruct (is_object (column table rc)); apply strings_of_of_strings.
Qed.

End Keys.

(** ** The response *)

Section Response.

Lemma lookup_foldl_insert (f : string -> Metrics) (rs : list string)
    (m0 : gmap string Metrics) (k : string) :
  foldl (fun out r => <[r := f r]> out) m0 rs !! k =
  if decide (k ∈ rs) then Some (f k) else m0 !! k.
Proof.
  revert m0. induction rs as [|r rs IH]; intros m0; simpl.
  - destruct (decide (k ∈ [])) as [H|_]; [inversion H|reflexivity].
  - rewrite IH. destruct (decide (k ∈ rs)) as [H|H].
    + rewrite decide_True by (apply elem_of_cons; auto). reflexivity.
    + destruct (decide (k = r)) as [->|N].
      * rewrite lookup_insert_eq, decide_True by apply list_elem_of_here. reflexivity.
      * rewrite lookup_insert_ne by congruence.
        rewrite decide_False; [reflexivity|].
        intros Hin. apply elem_of_cons in Hin as [?|?]; contradiction.
Qed.

Lemma count_true_0_mask {A} (mask : list bool) (l : list A) :
  count_true mask = 0%nat -> mask_list mask l = [].
Proof.
  unfold count_true. revert l.
  induction mask as [|b mask IH]; intros [|x l] H; simpl; try reflexivity.
  destruct b; simpl in H; [discriminate|]. apply IH, H.
Qed.

Lemma count_true_map {A} (f : A -> bool) (l : list A) :
  count_true (map f l) = length (List.filter f l).
Proof.
  unfold count_true. induction l as [|x l IH]; simpl; [reflexivity|].
  change (id (f x)) with (f x). destruct (f x); simpl; rewrite IH; reflexivity.
Qed.

Lemma notna_all_nan (l : list float) :
  forallb is_nan l = true -> notna l = [].
Proof.
  unfold notna. induction l as [|x l IH]; simpl; [reflexivity|].
  intros H. apply andb_prop in H as [Hx Hl]. rewrite Hx. simpl. apply IH, Hl.
Qed.

Lemma is_nan_true (x : float) : is_nan x = true -> Prim2SF x = S754_nan.
Proof.
  unfold is_nan. rewrite FloatAxioms.eqb_spec. unfold SFeqb. intros H.
  destruct (Prim2SF x) eqn:E; try reflexivity;
    rewrite SFcompare_refl in H by congruence; discriminate.
Qed.

(** The mean of a numeric column without a single value is NaN. *)
Lemma mean_of_all_nan (s : Series) :
  is_object s = false -> forallb is_nan (floats_of s) = true -> mean_of s = nan.
Proof.
  unfold mean_of, floats_of. destruct s as [v|v|v]; simpl; intros Hs Hnan.
  - unfold nanmean_int. rewrite (notna_all_nan _ Hnan). reflexivity.
  - unfold nanmean. rewrite (notna_all_nan _ Hnan). reflexivity.
  - discriminate.
Qed.

Section Entries.

Variable floatify : string -> option float.
Variable float_str : float -> string.

(** The float64 values of the selected rows of the latency column. *)
Lemma selected_rows_values (table : DataFrame) (region : string) :
  floats_of (selected_rows floatify float_str table region (latency_series floatify table))
  = selected floatify float_str table region (latency_values floatify table).
Proof.
  unfold selected_rows, selected, latency_series, latency_values.
  destruct (latency_col_of table); [|destruct (row_mask _ _ _ _); reflexivity].
  apply floats_of_mask, is_object_to_numeric.
Qed.

Lemma response_lookup (table : DataFrame) (payload : Payload) (k : string) :
  response floatify float_str table payload !! k =
  if decide (k ∈ regions payload)
  then Some (entry floatify float_str table (threshold_ms payload) k)
  else None.
Proof.
  unfold response.
  rewrite (lookup_foldl_insert
             (entry floatify float_str table (threshold_ms payload))).
  rewrite lookup_empty. reflexivity.
Qed.

(** A loaded table with both mandatory columns resolved answers with
    [response]. *)
Lemma latency_check_loaded (g : Globals) (payload : Payload) (h : Store)
    (l : nat) (table : DataFrame) :
  _df g = Some l -> h !! l = Some table ->
  is_Some (latency_col_of table) -> is_Some (region_col_of table) ->
  latency_check floatify float_str g payload h
  = (Return (response floatify float_str table payload),
     (h ++ [working_frame floatify float_str table])%list).
Proof.
  intros Hg Hl [lc Hlat] [rc Hreg].
  rewrite (latency_check_run floatify float_str g payload h l table Hg Hl).
  unfold answer. rewrite Hlat, Hreg. reflexivity.
Qed.

(** A query that returns has resolved both mandatory columns and returns
    [response]. *)
Lemma latency_check_returned (g : Globals) (payload : Payload) (h h' : Store)
    (l : nat) (table : DataFrame) (out : gmap string Metrics) :
  _df g = Some l -> h !! l = Some table ->
  latency_check floatify float_str g payload h = (Return out, h') ->
  out = response floatify float_str table payload.
Proof.
  intros Hg Hl.
  rewrite (latency_check_run floatify float_str g payload h l table Hg Hl).
  unfold answer.
  destruct (latency_col_of table); [|discriminate].
  destruct (region_col_of table); [|discriminate].
  intros [= <- _]. reflexivity.
Qed.

(** On a table with both mandatory columns resolved, the response has an
    entry for a key exactly when the key was requested, and a requested key
    that selects no row gets the null entry. *)
Lemma latency_check_one_entry_per_region (g : Globals) (payload : Payload)
    (h : Store) (l : nat) (table : DataFrame) :
  _df g = Some l -> h !! l = Some table ->
  is_Some (latency_col_of table) -> is_Some (region_col_of table) ->
  exists out h',
    latency_check floatify float_str g payload h = (Return out, h') /\
    (forall k, is_Some (out !! k) <-> k ∈ regions payload) /\
    (forall region, region ∈ regions payload ->
       matches floatify float_str table region = 0%nat ->
       out !! region = Some no_data).
Proof.
  intros Hg Hl Hlat Hreg. eexists _, _. split.
  - eapply latency_check_loaded; eassumption.
  - split.
    + intros k. rewrite response_lookup. destruct (decide (k ∈ regions payload)).
      * split; [tauto|eauto].
      * split; [intros [? ?]; discriminate|contradiction].
    + intros region Hin H0. rewrite response_lookup, decide_True by assumption.
      unfold entry. rewrite H0. reflexivity.
Qed.

End Entries.

End Response.

(** ** The column resolver *)

(** C2 (as amended).  For candidate names written in lower case, as the three
    fixed lists are: when some candidate equals a column name up to case, the
    resolver returns a column that equals, up to case, the first such candidate
    in priority order; the substring pass decides the result only when no
    candidate matches a column exactly, and it returns the first column, in
    table order, whose lowercased name has some candidate as a substring. *)
Theorem find_column_exact_before_substring (df : DataFrame) (candidates : list string) :
  Forall is_lower candidates ->
  ((exists cand col, cand ∈ candidates /\ col ∈ columns df /\ ci_eq cand col) ->
   exists before cand after col,
     candidates = (before ++ cand :: after)%list /\
     (forall b col', b ∈ before -> col' ∈ columns df -> ~ ci_eq b col') /\
     col ∈ columns df /\ ci_eq cand col /\
     _find_column df candidates = Some col) /\
  ((forall cand col, cand ∈ candidates -> col ∈ columns df -> ~ ci_eq cand col) ->
   _find_column df candidates = find_substring (columns df) candidates) /\
  (forall col,
     find_substring (columns df) candidates = Some col <->
     exists before after,
       columns df = (before ++ col :: after)%list /\
       existsb (fun cand => contains cand (lower col)) candidates = true /\
       forall b, b ∈ before ->
         existsb (fun cand => contains cand (lower b)) candidates = false).
Proof.
  intros Hlow. rewrite Forall_forall in Hlow.
  unfold _find_column, find_column_names, ci_eq. split; [|split].
  - intros (cand0 & col0 & Hc0 & Hcol0 & E0).
    rewrite (Hlow _ Hc0) in E0.
    destruct (find_exact (lower_dict (columns df)) candidates) as [col|] eqn:F.
    + destruct (find_exact_Some _ _ _ F) as (before & cand & after & Hsplit & Hc & Hb).
      apply lower_dict_sound in Hc as [Hin Hl].
      assert (cand ∈ candidates) as Hcand
        by (rewrite Hsplit; apply elem_of_app; right; apply list_elem_of_here).
      exists before, cand, after, col. repeat split; try assumption.
      * intros b col' Hbin Hcol' E.
        assert (b ∈ candidates) as Hbc by (rewrite Hsplit; apply elem_of_app; auto).
        rewrite (Hlow _ Hbc) in E.
        destruct (lower_dict_complete _ _ Hcol') as [c Hc].
        rewrite <- E, (Hb b Hbin) in Hc. discriminate.
      * rewrite (Hlow _ Hcand). congruence.
    + rewrite find_exact_None in F. specialize (F cand0 Hc0).
      destruct (lower_dict_complete _ _ Hcol0) as [c Hc]. congruence.
  - intros Hno.
    destruct (find_exact (lower_dict (columns df)) candidates) as [col|] eqn:F;
      [|reflexivity].
    destruct (find_exact_Some _ _ _ F) as (before & cand & after & Hsplit & Hc & _).
    apply lower_dict_sound in Hc as [Hin Hl].
    assert (cand ∈ candidates) as Hcand
      by (rewrite Hsplit; apply elem_of_app; right; apply list_elem_of_here).
    exfalso. apply (Hno cand col Hcand Hin). rewrite (Hlow _ Hcand). congruence.
  - intros col. apply find_substring_Some.
Qed.

Lemma find_column_exact_before_substring_witness :
  let df := mkFrame 0 [("my_latency", Float64 []); ("Latency", Float64 []);
                       ("PING_MS", Float64 [])] in
  exists before cand after col,
    latency_candidates = (before ++ cand :: after)%list /\
    (forall b col', b ∈ before -> col' ∈ columns df -> ~ ci_eq b col') /\
    col ∈ columns df /\ ci_eq cand col /\
    _find_column df latency_candidates = Some col.
Proof.
  intros df.
  apply (find_column_exact_before_substring df latency_candidates).
  - repeat constructor.
  - exists "latency", "Latency". split; [|split].
    + apply elem_of_cons. right. apply list_elem_of_here.
    + apply elem_of_cons. right. apply list_elem_of_here.
    + reflexivity.
Defined.

(** C2, as stated, fails for a candidate that is not in lower case: the
    column [Region] equals the candidate [Region] exactly, yet nothing is
    resolved. *)
Lemma find_column_mixed_case_candidate :
  let df := mkFrame 0 [("Region", Object [])] in
  (exists cand col, cand ∈ ["Region"] /\ col ∈ columns df /\ ci_eq cand col) /\
  _find_column df ["Region"] = None.
Proof.
  intros df. split; [|reflexivity].
  exists "Region", "Region". split; [apply list_elem_of_here|].
  split; [apply list_elem_of_here|reflexivity].
Qed.

(** The three fixed candidate lists are in lower case. *)
Lemma fixed_candidates_lower :
  Forall is_lower latency_candidates /\ Forall is_lower region_candidates /\
  Forall is_lower uptime_candidates.
Proof. repeat split; repeat constructor. Qed.

(** ** The endpoint of [app.py] *)

Local Open Scope float_scope.

Section Claims.

Variable floatify : string -> option float.
Variable float_str : float -> string.

Abbreviation latency_check := (latency_check floatify float_str).
Abbreviation matches := (matches floatify float_str).
Abbreviation selected := (selected floatify float_str).
Abbreviation latency_values := (latency_values floatify).
Abbreviation latency_series := (latency_series floatify).
Abbreviation uptime_series := (uptime_series floatify).
Abbreviation selected_rows := (selected_rows floatify float_str).

(** A requested region of a successful query has the entry [entry]. *)
Lemma latency_check_entry (g : Globals) (payload : Payload) (h : Store)
    (l : nat) (table : DataFrame) (region : string) :
  _df g = Some l -> h !! l = Some table ->
  is_Some (latency_col_of table) -> is_Some (region_col_of table) ->
  region ∈ regions payload ->
  exists out h',
    latency_check g payload h = (Return out, h') /\
    out !! region = Some (entry floatify float_str table (threshold_ms payload) region).
Proof.
  intros Hg Hl Hlat Hreg Hin. eexists _, _. split.
  - eapply latency_check_loaded; eassumption.
  - rewrite response_lookup, decide_True by assumption. reflexivity.
Qed.

(** C3.  For a requested region with at least one matched row: without an
    uptime column [avg_uptime] is null; with one, let [raw] be the mean of
    the coerced uptime values of the matched rows.  When [raw] is at most 1.5,
    [avg_uptime] is [raw] rounded to 6 decimals; when [raw] exceeds 1.5,
    [avg_uptime] is [raw / 100] rounded to 6 decimals; when [raw] is NaN, so
    is [avg_uptime].  Rounded to 6 decimals means: the binary64 value nearest
    to [k / 10^6], for the integer [k] nearest to a million times the value,
    ties to even.  The mean leaves missing values out: that of 0.99, 99 and a
    missing value is 49.995; it adds in numpy's order: that of ten values 0.1
    is 0.1. *)
Theorem avg_uptime_rescale (g : Globals) (payload : Payload) (h : Store)
    (l : nat) (table : DataFrame) (region : string) :
  _df g = Some l -> h !! l = Some table ->
  is_Some (latency_col_of table) -> is_Some (region_col_of table) ->
  region ∈ regions payload ->
  matches table region <> 0%nat ->
  exists out h' e,
    latency_check g payload h = (Return out, h') /\
    out !! region = Some e /\
    match uptime_series table with
    | None => avg_uptime e = None
    | Some up =>
        let raw := mean_of (selected_rows table region up) in
        exists reported,
          avg_uptime e = Some reported /\
          ((raw <=? 1.5) = true -> rounded_to 6 raw reported) /\
          ((1.5 <? raw) = true -> rounded_to 6 (raw / 100) reported) /\
          (is_nan raw = true -> is_nan reported = true)
    end /\
    mean_of (Float64 [0.99; 99; nan]) = 49.995 /\
    mean_of (Int64 [99; 100]%Z) = 99.5 /\
    mean_of (Float64 (repeat 0.1 10%nat)) = 0.1.
Proof.
  intros Hg Hl Hlat Hreg Hin Hm.
  destruct (latency_check_entry g payload h l table region Hg Hl Hlat Hreg Hin)
    as (out & h' & Hrun & Hout).
  exists out, h', (entry floatify float_str table (threshold_ms payload) region).
  split; [assumption|]. split; [assumption|].
  split; [|repeat split; vm_compute; reflexivity].
  unfold entry. apply Nat.eqb_neq in Hm. rewrite Hm. simpl.
  destruct (uptime_series table) as [up|]; simpl; [|reflexivity].
  eexists. split; [reflexivity|].
  unfold uptime_scaled. split; [|split].
  - intros Hle. rewrite (leb_not_ltb _ _ Hle). apply py_round_rounded.
  - intros Hgt. rewrite Hgt. apply py_round_rounded.
  - intros Hnan. rewrite (ltb_nan_r _ _ Hnan).
    unfold py_round. rewrite (is_nan_true _ Hnan). exact Hnan.
Qed.

(** C4.  [breaches] is the number of matched rows whose coerced latency is
    strictly above the threshold; a latency equal to the threshold and a
    missing latency (NaN) do not count. *)
Theorem breaches_count (g : Globals) (payload : Payload) (h : Store)
    (l : nat) (table : DataFrame) (region : string) :
  _df g = Some l -> h !! l = Some table ->
  is_Some (latency_col_of table) -> is_Some (region_col_of table) ->
  region ∈ regions payload ->
  exists out h' e,
    latency_check g payload h = (Return out, h') /\
    out !! region = Some e /\
    breaches e =
      Z.of_nat (length (List.filter (fun v => threshold_ms payload <? v)
                                    (selected table region (latency_values table)))) /\
    (forall v, v = threshold_ms payload -> (threshold_ms payload <? v) = false) /\
    (forall v, is_nan v = true -> (threshold_ms payload <? v) = false).
Proof.
  intros Hg Hl Hlat Hreg Hin.
  destruct (latency_check_entry g payload h l table region Hg Hl Hlat Hreg Hin)
    as (out & h' & Hrun & Hout).
  exists out, h', (entry floatify float_str table (threshold_ms payload) region).
  split; [assumption|]. split; [assumption|]. split; [|split].
  - unfold entry. destruct (matches table region =? 0)%nat eqn:Hm.
    + apply Nat.eqb_eq in Hm. unfold Reading.selected.
      rewrite (count_true_0_mask _ _ Hm). reflexivity.
    + simpl. unfold sum_bool. rewrite count_true_map. reflexivity.
  - intros v ->. apply ltb_irrefl.
  - intros v Hv. apply ltb_nan_r, Hv.
Qed.


(** C10.  In the entry of a requested region, [avg_latency] and
    [p95_latency] are null exactly when no row matches; when rows match and
    every matched latency is missing, [avg_latency] is NaN, not null. *)
Theorem latency_fields_null_iff_no_rows (g : Globals) (payload : Payload)
    (h : Store) (l : nat) (table : DataFrame) (region : string) :
  _df g = Some l -> h !! l = Some table ->
  is_Some (latency_col_of table) -> is_Some (region_col_of table) ->
  region ∈ regions payload ->
  exists out h' e,
    latency_check g payload h = (Return out, h') /\
    out !! region = Some e /\
    (avg_latency e = None <-> matches table region = 0%nat) /\
    (p95_latency e = None <-> matches table region = 0%nat) /\
    (matches table region <> 0%nat ->
     forallb is_nan (selected table region (latency_values table)) = true ->
     exists v, avg_latency e = Some v /\ is_nan v = true).
Proof.
  intros Hg Hl Hlat Hreg Hin.
  destruct (latency_check_entry g payload h l table region Hg Hl Hlat Hreg Hin)
    as (out & h' & Hrun & Hout).
  exists out, h', (entry floatify float_str table (threshold_ms payload) region).
  split; [assumption|]. split; [assumption|].
  unfold entry. destruct (matches table region =? 0)%nat eqn:Hm.
  - apply Nat.eqb_eq in Hm. simpl.
    split; [tauto|]. split; [tauto|]. intros N. contradiction.
  - apply Nat.eqb_neq in Hm. simpl.
    split; [split; [discriminate|contradiction]|].
    split; [split; [discriminate|contradiction]|].
    intros _ Hnan. eexists. split; [reflexivity|].
    rewrite mean_of_all_nan; [reflexivity| |].
    + unfold selected_rows, latency_series. rewrite is_object_mask.
      destruct (latency_col_of table); [apply is_object_to_numeric|reflexivity].
    + rewrite selected_rows_values. exact Hnan.
Qed.

(** C8.  After a failed load every query, whatever its payload and whatever
    the store holds by then, raises the 500 error that carries the load
    failure message; the store is left as it was: nothing is copied, resolved
    or computed. *)
Theorem dataset_unavailable (e : string) (payload : Payload) (h : Store) :
  _df (fst (startup (inl e))) = None /\
  latency_check (fst (startup (inl e))) payload h
  = (Raise (HTTPException 500 ("Telemetry CSV not loaded: " +:+ e)), h).
Proof. split; reflexivity. Qed.

(** C9.  A query leaves every frame of the store as it was, the loaded table
    in particular, and a later query gets the outcome it would have got
    before. *)
Theorem query_preserves_table (g : Globals) (payload : Payload) (h : Store)
    (l : nat) (table : DataFrame) :
  _df g = Some l -> h !! l = Some table ->
  let h' := snd (latency_check g payload h) in
  h' !! l = Some table /\
  (forall a, (a < length h)%nat -> h' !! a = h !! a) /\
  (forall payload', fst (latency_check g payload' h') = fst (latency_check g payload' h)).
Proof.
  intros Hg Hl h'. subst h'.
  rewrite (latency_check_run floatify float_str g payload h l table Hg Hl). simpl.
  assert ((h ++ [working_frame floatify float_str table])%list !! l = Some table) as Hl'.
  { rewrite lookup_app_l; [assumption|]. eapply lookup_lt_Some; eassumption. }
  split; [assumption|]. split.
  - intros a Ha. apply lookup_app_l, Ha.
  - intros payload'.
    rewrite (latency_check_run floatify float_str g payload' _ l table Hg Hl').
    rewrite (latency_check_run floatify float_str g payload' h l table Hg Hl).
    reflexivity.
Qed.

(** C7 (as amended).  A loaded table in which Latency cannot be resolved makes
    the query fail with a 400 error that cites the latency column and does not
    mention the region role, whether or not Region resolves; a table in which
    Latency resolves and Region does not makes it fail with a 400 error that
    cites the region column and does not mention latency.  The names an error
    lists as expected are candidate names of the role it cites. *)
Theorem schema_failure_first_role (g : Globals) (payload : Payload) (h : Store)
    (l : nat) (table : DataFrame) :
  _df g = Some l -> h !! l = Some table ->
  (latency_col_of table = None ->
   exists detail,
     fst (latency_check g payload h) = Raise (HTTPException 400 detail) /\
     contains "latency column" detail = true /\
     contains "region" (lower detail) = false /\
     listed_names detail <> [] /\
     Forall (fun name => In name latency_candidates) (listed_names detail) /\
     Forall (fun name => ~ In name region_candidates) (listed_names detail)) /\
  (is_Some (latency_col_of table) -> region_col_of table = None ->
   exists detail,
     fst (latency_check g payload h) = Raise (HTTPException 400 detail) /\
     contains "region column" detail = true /\
     contains "latency" (lower detail) = false /\
     listed_names detail <> [] /\
     Forall (fun name => In name region_candidates) (listed_names detail) /\
     Forall (fun name => ~ In name latency_candidates) (listed_names detail)).
Proof.
  intros Hg Hl.
  rewrite (latency_check_run floatify float_str g payload h l table Hg Hl). simpl.
  unfold answer. split.
  - intros ->. eexists. split; [reflexivity|].
    split; [vm_compute; reflexivity|]. split; [vm_compute; reflexivity|].
    match goal with
    | |- context [listed_names ?d] =>
        let names := eval vm_compute in (listed_names d) in
        change (listed_names d) with names
    end.
    split; [discriminate|].
    split; repeat (constructor; [simpl; intuition discriminate|]);
      constructor.
  - intros [lc ->] ->. eexists. split; [reflexivity|].
    split; [vm_compute; reflexivity|]. split; [vm_compute; reflexivity|].
    match goal with
    | |- context [listed_names ?d] =>
        let names := eval vm_compute in (listed_names d) in
        change (listed_names d) with names
    end.
    split; [discriminate|].
    split; repeat (constructor; [simpl; intuition discriminate|]);
      constructor.
Qed.

End Claims.

(** ** The endpoint of [api/app.py] *)

Section ApiEndpoint.

Implicit Types (telemetry : DataFrame) (result : gmap string Metrics).

(** A region that selects no row takes the [continue] branch. *)
Lemma check_region_skips telemetry (threshold : float) result (region : string)
    (col : Series) :
  getitem telemetry "region" = Return col ->
  count_true (eq_scalar col region) = 0%nat ->
  Api.check_region telemetry threshold result region = Return result.
Proof.
  intros Hcol H0. unfold Api.check_region. rewrite Hcol. simpl obind.
  unfold empty.
  change (index_len (mask_rows (eq_scalar col region) telemetry))
    with (count_true (eq_scalar col region)).
  rewrite H0. reflexivity.
Qed.

(** An iteration either leaves [result] alone or sets the entry of its own
    region. *)
Lemma check_region_result telemetry (threshold : float) result result'
    (region : string) :
  Api.check_region telemetry threshold result region = Return result' ->
  result' = result \/ exists e, result' = <[region := e]> result.
Proof.
  unfold Api.check_region.
  destruct (getitem telemetry "region") as [col|]; simpl; [|discriminate].
  destruct (empty _); [intros [= <-]; left; reflexivity|].
  destruct (getitem _ "latency_ms") as [lat|]; simpl; [|discriminate].
  destruct (mean lat) as [avg|]; simpl; [|discriminate].
  destruct (percentile lat 95) as [p95|]; simpl; [|discriminate].
  destruct (getitem _ "uptime") as [up|]; simpl; [|discriminate].
  destruct (mean up) as [avgu|]; simpl; [|discriminate].
  destruct (gt_scalar lat threshold) as [over|]; simpl; [|discriminate].
  intros [= <-]. right. eexists. reflexivity.
Qed.

(** Whatever else is requested, a region that selects no row of the table has
    no entry in the response of [check_latency]. *)
Lemma check_latency_omits_unmatched telemetry (body : Api.Body) result
    (region : string) (col : Series) :
  getitem telemetry "region" = Return col ->
  count_true (eq_scalar col region) = 0%nat ->
  Api.check_latency telemetry body = Return result ->
  result !! region = None.
Proof.
  intros Hcol H0. unfold Api.check_latency.
  generalize (default [] (Api.body_regions body)) as rs.
  generalize (default 180 (Api.body_threshold_ms body)) as threshold.
  intros threshold rs.
  assert ((∅ : gmap string Metrics) !! region = None) as Hacc by apply lookup_empty.
  revert Hacc. generalize (∅ : gmap string Metrics) as acc.
  induction rs as [|r rs IH]; intros acc Hacc; simpl.
  - intros [= <-]. exact Hacc.
  - destruct (Api.check_region telemetry threshold acc r) as [acc'|] eqn:Hstep;
      simpl; [|discriminate].
    apply IH. destruct (decide (r = region)) as [->|N].
    + rewrite (check_region_skips _ _ _ _ _ Hcol H0) in Hstep.
      injection Hstep as <-. exact Hacc.
    + apply check_region_result in Hstep as [->|[e ->]]; [exact Hacc|].
      rewrite lookup_insert_ne by exact N. exact Hacc.
Qed.

End ApiEndpoint.

(** ** The claims on the sample tables *)

(** C1.  On the table of the end-to-end scenario, queried for [us-east] and
    [mars]: [check_latency] of [api/app.py] answers with an entry for
    [us-east] and none for [mars], while [latency_check] of [app.py] gives
    [mars] the null entry. *)
Theorem check_latency_skips_unmatched_region :
  exists result out,
    Api.check_latency us_east_table (Api.mkBody (Some ["us-east"; "mars"]) (Some 150))
      = Return result /\
    fst (run_query us_east_table (mkPayload ["us-east"; "mars"] 150)) = Return out /\
    is_Some (result !! "us-east") /\
    result !! "mars" = None /\
    out !! "mars" = Some no_data.
Proof.
  eexists _, _. repeat split; try (vm_compute; reflexivity).
  vm_compute. eexists. reflexivity.
Qed.

(** C3 on the scenario table: the raw mean of 0.99 and 99 is 49.995; it
    exceeds 1.5, and a hundredth of it, 0.49994999999999995, is reported as
    0.49995. *)
Lemma avg_uptime_rescale_witness :
  (exists out h' e,
     latency_check floatify_digits float_str_integral loaded
       (mkPayload ["us-east"] 150) [us_east_table] = (Return out, h') /\
     out !! "us-east" = Some e /\
     match uptime_series floatify_digits us_east_table with
     | None => avg_uptime e = None
     | Some up =>
         let raw := mean_of (selected_rows floatify_digits float_str_integral
                               us_east_table "us-east" up) in
         exists reported,
           avg_uptime e = Some reported /\
           ((raw <=? 1.5) = true -> rounded_to 6 raw reported) /\
           ((1.5 <? raw) = true -> rounded_to 6 (raw / 100) reported) /\
           (is_nan raw = true -> is_nan reported = true)
     end /\
     mean_of (Float64 [0.99; 99; nan]) = 49.995 /\
     mean_of (Int64 [99; 100]%Z) = 99.5 /\
     mean_of (Float64 (repeat 0.1 10%nat)) = 0.1) /\
  uptime_series floatify_digits us_east_table = Some (Float64 [0.99; 99]) /\
  mean_of (selected_rows floatify_digits float_str_integral us_east_table "us-east"
             (Float64 [0.99; 99])) = 49.995 /\
  49.995 / 100 = 0.49994999999999995 /\
  py_round 0.49994999999999995 6 = 0.49995.
Proof.
  split; [|repeat split; vm_compute; reflexivity].
  apply (avg_uptime_rescale floatify_digits float_str_integral loaded
           (mkPayload ["us-east"] 150) [us_east_table] 0%nat us_east_table "us-east").
  - reflexivity.
  - reflexivity.
  - vm_compute. eexists. reflexivity.
  - vm_compute. eexists. reflexivity.
  - apply list_elem_of_here.
  - vm_compute. discriminate.
Defined.

(** Ten tenths: added in blocks, as numpy does, they give 1; added from left
    to right they would give 0.9999999999999999. *)
Example ten_tenths :
  np_sum (repeat 0.1 10%nat) = 1 /\
  fold_left PrimFloat.add (repeat 0.1 10%nat) 0 = 0.99999999999999989 /\
  mean_of (Float64 (repeat 0.1 10%nat)) = 0.1.
Proof. repeat split; vm_compute; reflexivity. Qed.

(** Nine rows of one region: the uptime percentages average to 98.96 and are
    reported as the fraction 0.9896. *)
Example nine_samples :
  mean_of (Float64 [99.9; 99.5; 98.7; 99.99; 97.3; 99.1; 99.95; 96.4; 99.8]) = 98.96 /\
  fst (run_query nine_table (mkPayload ["eu"] 45))
  = Return {[ "eu" := mkMetrics (Some 50.083) (Some 86) (Some 0.9896) 5 ]}.
Proof. split; vm_compute; reflexivity. Qed.

(** C4 on the scenario table with the threshold 150. *)
Lemma breaches_count_witness :
  exists out h' e,
    latency_check floatify_digits float_str_integral loaded
      (mkPayload ["us-east"] 150) [us_east_table] = (Return out, h') /\
    out !! "us-east" = Some e /\
    breaches e =
      Z.of_nat (length (List.filter (fun v => 150 <? v)
        (selected floatify_digits float_str_integral us_east_table "us-east"
           (latency_values floatify_digits us_east_table)))) /\
    (forall v, v = 150 -> (150 <? v) = false) /\
    (forall v, is_nan v = true -> (150 <? v) = false).
Proof.
  apply (breaches_count floatify_digits float_str_integral loaded
           (mkPayload ["us-east"] 150) [us_east_table] 0%nat us_east_table "us-east").
  - reflexivity.
  - reflexivity.
  - vm_compute. eexists. reflexivity.
  - vm_compute. eexists. reflexivity.
  - apply list_elem_of_here.
Defined.

(** A latency equal to the threshold is not counted: with the threshold 300
    the scenario table has no breach. *)
Example threshold_itself_is_no_breach :
  fst (run_query us_east_table (mkPayload ["us-east"] 300))
  = Return {[ "us-east" := mkMetrics (Some 200) (Some 290) (Some 0.49995) 0 ]}.
Proof. vm_compute. reflexivity. Qed.


Example five_samples_p95 :
  fst (run_query five_table (mkPayload ["eu"] 30))
  = Return {[ "eu" := mkMetrics (Some 30) (Some 48) None 2 ]}.
Proof. vm_compute. reflexivity. Qed.

(** The order of the rows does not matter to the percentile. *)
Example shuffled_samples_p95 :
  fst (run_query shuffled_table (mkPayload ["eu"] 30))
  = Return {[ "eu" := mkMetrics (Some 30) (Some 48) None 2 ]}.
Proof. vm_compute. reflexivity. Qed.

(** The difference of two int64 neighbours wraps around: between the least
    and the greatest int64 it is [-1], not [2^64 - 1]. *)
Example int64_difference_wraps :
  wrap64 (9223372036854775807 - (-9223372036854775808)) = (-1)%Z /\
  quantile_of (Int64 [-9223372036854775808; 9223372036854775807]%Z) 0.95
  = of_Z 9223372036854775807 - of_Z (-1) * (1 - of_Z 1 * (0.95 * 100 / 100)).
Proof. split; vm_compute; reflexivity. Qed.

(** C6.  The end-to-end scenario: both rows normalize to [us-east]; the raw
    uptime mean exceeds 1.5 and is rescaled; the response is
    [{us-east: {avg_latency: 200.0, p95_latency: 290.0, avg_uptime: 0.49995,
    breaches: 1}}], whatever the two open conversions are. *)
Theorem us_east_scenario (floatify : string -> option float) (float_str : float -> string) :
  region_keys floatify float_str us_east_table = ["us-east"; "us-east"] /\
  matches floatify float_str us_east_table "us-east" = 2%nat /\
  (1.5 <? nanmean [0.99; 99]) = true /\
  py_round (nanmean [0.99; 99] / 100) 6 = 0.49995 /\
  latency_check floatify float_str (fst (startup (inr us_east_table)))
    (mkPayload ["us-east"] 150) (snd (startup (inr us_east_table)))
  = (Return {[ "us-east" := mkMetrics (Some 200) (Some 290) (Some 0.49995) 1 ]},
     [us_east_table; working_frame floatify float_str us_east_table]).
Proof. repeat split; vm_compute; reflexivity. Qed.

(** C7 on the table with the columns [timestamp] and [value]. *)
Lemma schema_failure_first_role_witness :
  latency_col_of unknown_table = None /\
  exists detail,
    fst (latency_check floatify_digits float_str_integral loaded
           (mkPayload ["apac"] 100) [unknown_table])
    = Raise (HTTPException 400 detail) /\
    contains "latency column" detail = true /\
    contains "region" (lower detail) = false /\
    listed_names detail <> [] /\
    Forall (fun name => In name latency_candidates) (listed_names detail) /\
    Forall (fun name => ~ In name region_candidates) (listed_names detail).
Proof.
  split; [reflexivity|].
  apply (schema_failure_first_role floatify_digits float_str_integral loaded
           (mkPayload ["apac"] 100) [unknown_table] 0%nat unknown_table).
  - reflexivity.
  - reflexivity.
  - reflexivity.
Defined.

(** The names the two messages list. *)
Example names_listed_in_the_messages :
  listed_names "Could not detect latency column (expected names: latency_ms, latency, rtt, ping_ms)"
  = ["latency_ms"; "latency"; "rtt"; "ping_ms"]%string /\
  listed_names "Could not detect region column (expected names: region, region_name, area)"
  = ["region"; "region_name"; "area"]%string /\
  listed_names "no list here" = [].
Proof. repeat split; vm_compute; reflexivity. Qed.

(** C7, as stated, fails on the table with the columns [timestamp] and
    [value]: both roles are unresolved, yet the error speaks of the latency
    column only; neither the region role nor its candidate [location] occurs
    in the message. *)
Lemma schema_failure_cites_latency_only :
  latency_col_of unknown_table = None /\
  region_col_of unknown_table = None /\
  exists detail,
    fst (run_query unknown_table (mkPayload ["apac"] 100))
    = Raise (HTTPException 400 detail) /\
    contains "region" (lower detail) = false /\
    contains "location" (lower detail) = false.
Proof.
  split; [reflexivity|]. split; [reflexivity|].
  eexists. repeat split; vm_compute; reflexivity.
Qed.

(** C9 on the table with text in its latency column. *)
Lemma query_preserves_table_witness :
  let h' := snd (latency_check floatify_digits float_str_integral loaded
                   (mkPayload ["apac"] 100) [noisy_table]) in
  h' !! 0%nat = Some noisy_table /\
  (forall a, (a < length [noisy_table])%nat -> h' !! a = [noisy_table] !! a) /\
  (forall payload',
     fst (latency_check floatify_digits float_str_integral loaded payload' h')
     = fst (latency_check floatify_digits float_str_integral loaded payload' [noisy_table])).
Proof.
  apply (query_preserves_table floatify_digits float_str_integral loaded
           (mkPayload ["apac"] 100) [noisy_table] 0%nat noisy_table).
  - reflexivity.
  - reflexivity.
Defined.

(** The store does record mutation: the same coercion applied to the loaded
    frame itself, instead of a copy, replaces the text cells of the table;
    the query leaves its coerced working copy at the next address. *)
Example coercion_in_place_changes_table :
  snd (frame_setitem 0 "Latency"
         (to_numeric floatify_digits (column noisy_table "Latency")) [noisy_table])
  !! 0%nat <> Some noisy_table /\
  (snd (run_query noisy_table (mkPayload ["apac"] 100))) !! 1%nat
  = Some (working_frame floatify_digits float_str_integral noisy_table) /\
  working_frame floatify_digits float_str_integral noisy_table <> noisy_table.
Proof.
  split; [|split].
  - vm_compute. congruence.
  - vm_compute. reflexivity.
  - vm_compute. congruence.
Qed.

(** C10 on a region whose only row has a latency that is not a number. *)
Lemma latency_fields_null_iff_no_rows_witness :
  exists out h' e,
    latency_check floatify_digits float_str_integral loaded
      (mkPayload ["EMEA "] 100) [noisy_table] = (Return out, h') /\
    out !! "EMEA " = Some e /\
    (avg_latency e = None <->
     matches floatify_digits float_str_integral noisy_table "EMEA " = 0%nat) /\
    (p95_latency e = None <->
     matches floatify_digits float_str_integral noisy_table "EMEA " = 0%nat) /\
    (matches floatify_digits float_str_integral noisy_table "EMEA " <> 0%nat ->
     forallb is_nan
       (selected floatify_digits float_str_integral noisy_table "EMEA "
          (latency_values floatify_digits noisy_table)) = true ->
     exists v, avg_latency e = Some v /\ is_nan v = true).
Proof.
  apply (latency_fields_null_iff_no_rows floatify_digits float_str_integral loaded
           (mkPayload ["EMEA "] 100) [noisy_table] 0%nat noisy_table "EMEA ").
  - reflexivity.
  - reflexivity.
  - vm_compute. eexists. reflexivity.
  - vm_compute. eexists. reflexivity.
  - apply list_elem_of_here.
Defined.

Example all_missing_latency_is_nan :
  matches floatify_digits float_str_integral noisy_table "EMEA " = 1%nat /\
  fst (run_query noisy_table (mkPayload ["EMEA "; "mars"] 100))
  = Return {[ "EMEA " := mkMetrics (Some nan) (Some nan) None 0; "mars" := no_data ]}.
Proof. split; vm_compute; reflexivity. Qed.

(* ===================================================================== *)
(** * Further properties of the two endpoints *)
(* ===================================================================== *)

Import ApiReading MoreSamples.
Local Close Scope float_scope.

(** ** Trimming and lowercasing *)

Section Normalization.

Lemma lower_ascii_idem (c : ascii) : lower_ascii (lower_ascii c) = lower_ascii c.
Proof. destruct c as [[] [] [] [] [] [] [] []]; reflexivity. Qed.

Lemma is_space_lower (c : ascii) : is_space (lower_ascii c) = is_space c.
Proof. destruct c as [[] [] [] [] [] [] [] []]; reflexivity. Qed.

Lemma lower_idem (s : string) : lower (lower s) = lower s.
Proof. induction s as [|c s IH]; simpl; [reflexivity|]. rewrite lower_ascii_idem, IH. reflexivity. Qed.

Lemma lstrip_lower (s : string) : lstrip (lower s) = lower (lstrip s).
Proof.
  induction s as [|c s IH]; simpl; [reflexivity|].
  rewrite is_space_lower. destruct (is_space c); [exact IH|reflexivity].
Qed.

Lemma rstrip_lower (s : string) : rstrip (lower s) = lower (rstrip s).
Proof.
  induction s as [|c s IH]; simpl; [reflexivity|].
  rewrite IH, is_space_lower. destruct (rstrip s); simpl; [|reflexivity].
  destruct (is_space c); reflexivity.
Qed.

Lemma lstrip_idem (s : string) : lstrip (lstrip s) = lstrip s.
Proof.
  induction s as [|c s IH]; simpl; [reflexivity|].
  destruct (is_space c) eqn:E; [exact IH|]. simpl. rewrite E. reflexivity.
Qed.

Lemma rstrip_idem (s : string) : rstrip (rstrip s) = rstrip s.
Proof.
  induction s as [|c s IH]; simpl; [reflexivity|].
  destruct (rstrip s) as [|d r] eqn:E.
  - destruct (is_space c) eqn:Hc; simpl; [reflexivity|]. rewrite Hc. reflexivity.
  - change (rstrip (String c (String d r))) with
      (match rstrip (String d r) with
       | EmptyString => if is_space c then EmptyString else String c EmptyString
       | r0 => String c r0
       end).
    rewrite IH. reflexivity.
Qed.

Lemma rstrip_lstrip (s : string) : rstrip (lstrip s) = lstrip (rstrip s).
Proof.
  induction s as [|c s IH]; simpl; [reflexivity|].
  destruct (is_space c) eqn:Hc.
  - rewrite IH. destruct (rstrip s) as [|d r]; simpl; [reflexivity|].
    rewrite Hc. reflexivity.
  - change (rstrip (String c s)) with
      (match rstrip s with
       | EmptyString => if is_space c then EmptyString else String c EmptyString
       | r0 => String c r0
       end).
    rewrite Hc. destruct (rstrip s); simpl; rewrite Hc; reflexivity.
Qed.

Lemma strip_idem (s : string) : strip (strip s) = strip s.
Proof.
  unfold strip. rewrite rstrip_lstrip, rstrip_idem, lstrip_idem. reflexivity.
Qed.

Lemma strip_lower (s : string) : strip (lower s) = lower (strip s).
Proof. unfold strip. rewrite rstrip_lower, lstrip_lower. reflexivity. Qed.

(** X8.  Trimming and lowercasing a requested key a second time changes
    nothing: a normalized key is its own normal form. *)
Theorem region_key_of_idempotent (region : string) :
  region_key_of (region_key_of region) = region_key_of region.
Proof.
  unfold region_key_of. rewrite strip_lower, strip_idem, lower_idem. reflexivity.
Qed.

End Normalization.

(** ** More on the column resolver *)

Section ResolverMore.

Implicit Types (columns candidates : list string).

Lemma find_substring_None columns candidates :
  find_substring columns candidates = None <->
  forall col, col ∈ columns ->
    existsb (fun cand => contains cand (lower col)) candidates = false.
Proof.
  induction columns as [|x xs IH]; simpl.
  - split; [intros _ col H; inversion H|reflexivity].
  - destruct (existsb (fun cand => contains cand (lower x)) candidates) eqn:E.
    + split; [discriminate|]. intros H.
      rewrite (H x (list_elem_of_here _ _)) in E. discriminate.
    + rewrite IH. split.
      * intros H col Hin. apply elem_of_cons in Hin as [->|Hin]; auto.
      * intros H col Hin. apply H. apply elem_of_cons. auto.
Qed.

(** The last column with a given lowercased name is the one the dictionary
    keeps. *)
Lemma lower_dict_last columns k c :
  lower_dict columns !! k = Some c ->
  exists pre post,
    columns = (pre ++ c :: post)%list /\ lower c = k /\
    forall x, x ∈ post -> lower x <> k.
Proof.
  induction columns as [|x xs IH] using rev_ind.
  - unfold lower_dict; simpl. rewrite lookup_empty. discriminate.
  - rewrite lower_dict_snoc. intros H.
    destruct (decide (lower x = k)) as [E|N].
    + rewrite <- E, lookup_insert_eq in H. injection H as <-.
      exists xs, []. split; [reflexivity|]. split; [assumption|].
      intros y Hy. inversion Hy.
    + rewrite lookup_insert_ne in H by assumption.
      destruct (IH H) as (pre & post & -> & Hl & Hpost).
      exists pre, (post ++ [x])%list. split; [rewrite <- app_assoc; reflexivity|].
      split; [assumption|].
      intros y Hy. apply elem_of_app in Hy as [Hy|Hy]; [auto|].
      apply list_elem_of_singleton in Hy. subst. assumption.
Qed.

Lemma find_column_names_None columns candidates :
  find_column_names columns candidates = None <->
  forall col, col ∈ columns ->
    existsb (fun cand => contains cand (lower col)) candidates = false.
Proof.
  unfold find_column_names.
  destruct (find_exact (lower_dict columns) candidates) as [c|] eqn:F.
  - split; [discriminate|]. intros H. exfalso.
    apply find_exact_Some in F as (before & cand & after & -> & Hc & _).
    apply lower_dict_sound in Hc as [Hin Hl].
    specialize (H c Hin). rewrite <- not_true_iff_false in H. apply H.
    apply existsb_exists. exists cand. split.
    + apply in_or_app. right. left. reflexivity.
    + rewrite Hl. apply contains_refl.
  - apply find_substring_None.
Qed.

(** X2.  The resolver reports absence exactly when no candidate occurs in any
    lowercased column name; what it returns otherwise is a column of the frame
    in whose lowercased name some candidate occurs. *)
Theorem find_column_absent_iff (df : DataFrame) (candidates : list string) :
  (_find_column df candidates = None <->
   forall col, col ∈ Pd.columns df ->
     existsb (fun cand => contains cand (lower col)) candidates = false) /\
  (forall col, _find_column df candidates = Some col ->
     col ∈ Pd.columns df /\
     existsb (fun cand => contains cand (lower col)) candidates = true).
Proof.
  split; [apply find_column_names_None|intros col; apply find_column_names_Some].
Qed.

(** X3.  When two columns differ only in case, an exact match resolves to the
    one that comes last in table order. *)
Theorem find_column_exact_takes_last (df : DataFrame)
    (before : list string) (cand : string) (after : list string) :
  (forall b col, b ∈ before -> col ∈ Pd.columns df -> lower col <> b) ->
  (exists col, col ∈ Pd.columns df /\ lower col = cand) ->
  exists pre col post,
    Pd.columns df = (pre ++ col :: post)%list /\ lower col = cand /\
    (forall x, x ∈ post -> lower x <> cand) /\
    _find_column df (before ++ cand :: after)%list = Some col.
Proof.
  intros Hbefore (col0 & Hin0 & Hl0).
  destruct (lower_dict_complete _ _ Hin0) as [col Hcol]. rewrite Hl0 in Hcol.
  destruct (lower_dict_last _ _ _ Hcol) as (pre & post & Hsplit & Hl & Hpost).
  exists pre, col, post. repeat split; try assumption.
  unfold _find_column, find_column_names.
  assert (find_exact (lower_dict (Pd.columns df)) (before ++ cand :: after)%list
          = Some col) as ->; [|reflexivity].
  clear Hsplit. induction before as [|b before IH]; simpl.
  - rewrite Hcol. reflexivity.
  - destruct (lower_dict (Pd.columns df) !! b) as [c|] eqn:E.
    + apply lower_dict_sound in E as [Hc Hlc].
      exfalso. apply (Hbefore b c); [apply list_elem_of_here|assumption|assumption].
    + apply IH. intros b' c' Hb'. apply Hbefore. apply elem_of_cons. auto.
Qed.

(** X3 on a table with the columns [Region] and [REGION]. *)
Lemma find_column_exact_takes_last_witness :
  let df := mkFrame 0 [("Region", Object []); ("latency_ms", Int64 []);
                       ("REGION", Object [])] in
  exists pre col post,
    Pd.columns df = (pre ++ col :: post)%list /\ lower col = "region" /\
    (forall x, x ∈ post -> lower x <> "region") /\
    _find_column df ([] ++ "region" :: ["region_name"; "area"; "location"])%list
    = Some col.
Proof.
  intros df.
  apply (find_column_exact_takes_last df [] "region" ["region_name"; "area"; "location"]).
  - intros b col Hb. inversion Hb.
  - exists "Region". split; [apply list_elem_of_here|reflexivity].
Defined.

Example duplicate_case_columns :
  _find_column (mkFrame 0 [("Region", Object []); ("latency_ms", Int64 []);
                           ("REGION", Object [])]) region_candidates
  = Some "REGION".
Proof. reflexivity. Qed.

Lemma prefix_app_l (a b s : string) :
  String.prefix (a +:+ b) s = true -> String.prefix a s = true.
Proof.
  revert s. induction a as [|c a IH]; intros s.
  - intros _. destruct s; reflexivity.
  - change (String c a +:+ b) with (String c (a +:+ b)).
    destruct s as [|d s]; [discriminate|].
    change (String.prefix (String c (a +:+ b)) (String d s))
      with (if ascii_dec c d then String.prefix (a +:+ b) s else false).
    change (String.prefix (String c a) (String d s))
      with (if ascii_dec c d then String.prefix a s else false).
    destruct (ascii_dec c d); [apply IH|discriminate].
Qed.

Lemma contains_app_l (a b s : string) :
  contains (a +:+ b) s = true -> contains a s = true.
Proof.
  assert (forall sub, contains sub "" = String.prefix sub "" || false) as Hnil
    by reflexivity.
  assert (forall sub d s,
            contains sub (String d s) = String.prefix sub (String d s) || contains sub s)
    as Hcons by reflexivity.
  induction s as [|d s IH].
  - rewrite !Hnil, !orb_false_r. apply prefix_app_l.
  - rewrite !Hcons. intros H. apply orb_true_iff in H as [H|H]; apply orb_true_iff.
    + left. exact (prefix_app_l _ _ _ H).
    + right. apply IH, H.
Qed.

(** X4.  For the three fixed lists, absence has a short criterion: no latency
    column is found exactly when no lowercased column name contains
    [latency], [rtt] or [ping]; no region column when none contains [region],
    [area] or [location]; no uptime column when none contains [up] or
    [availability]. *)
Theorem fixed_roles_absent_iff (df : DataFrame) :
  (_find_column df latency_candidates = None <->
   forall col, col ∈ Pd.columns df ->
     contains "latency" (lower col) = false /\ contains "rtt" (lower col) = false /\
     contains "ping" (lower col) = false) /\
  (_find_column df region_candidates = None <->
   forall col, col ∈ Pd.columns df ->
     contains "region" (lower col) = false /\ contains "area" (lower col) = false /\
     contains "location" (lower col) = false) /\
  (_find_column df uptime_candidates = None <->
   forall col, col ∈ Pd.columns df ->
     contains "up" (lower col) = false /\ contains "availability" (lower col) = false).
Proof.
  assert (forall a b s, contains a s = false -> contains (a +:+ b) s = false) as Hno.
  { intros a b s H. destruct (contains (a +:+ b) s) eqn:E; [|reflexivity].
    apply contains_app_l in E. congruence. }
  split; [|split]; unfold _find_column; rewrite find_column_names_None;
    split; intros H col Hin; specialize (H col Hin); simpl in *.
  - repeat (apply orb_false_iff in H as [? H]). tauto.
  - destruct H as (H1 & H2 & H3).
    pose proof (Hno "latency" "_ms" _ H1) as H1'.
    pose proof (Hno "ping" "_ms" _ H3) as H3'.
    change (contains "latency_ms" (lower col) = false) in H1'.
    change (contains "ping_ms" (lower col) = false) in H3'.
    rewrite H1', H1, H2, H3', H3. reflexivity.
  - repeat (apply orb_false_iff in H as [? H]). tauto.
  - destruct H as (H1 & H2 & H3).
    pose proof (Hno "region" "_name" _ H1) as H1'.
    change (contains "region_name" (lower col) = false) in H1'.
    rewrite H1', H1, H2, H3. reflexivity.
  - repeat (apply orb_false_iff in H as [? H]). tauto.
  - destruct H as (H1 & H2).
    pose proof (Hno "up" "time" _ H1) as H1'.
    pose proof (Hno "availability" "_pct" _ H2) as H2'.
    change (contains "uptime" (lower col) = false) in H1'.
    change (contains "availability_pct" (lower col) = false) in H2'.
    rewrite H1', H1, H2, H2'. reflexivity.
Qed.

End ResolverMore.

(** ** More on the order of binary64 *)

Local Open Scope float_scope.

Section FloatOrderMore.


Lemma SFcompare_nan_l (x : spec_float) : SFcompare S754_nan x = None.
Proof. reflexivity. Qed.

(** A NaN threshold is below nothing. *)
Lemma ltb_nan_l (t v : float) : is_nan t = true -> (t <? v) = false.
Proof.
  unfold is_nan. rewrite FloatAxioms.eqb_spec, FloatAxioms.ltb_spec.
  unfold SFeqb, SFltb. intros H.
  destruct (Prim2SF t) eqn:E; try (rewrite SFcompare_refl in H by congruence; discriminate).
  reflexivity.
Qed.

Lemma SFleb_ltb_trans (x y z : spec_float) :
  SFleb x y = true -> SFltb y z = true -> SFltb x z = true.
Proof.
  unfold SFleb, SFltb.
  destruct x as [sx|sx| |sx mx ex], y as [sy|sy| |sy my ey], z as [sz|sz| |sz mz ez];
    simpl; try discriminate;
    try destruct sx; try destruct sy; try destruct sz; simpl;
    try discriminate; try reflexivity;
    change (Pos.compare_cont Eq mx my) with (Pos.compare mx my);
    change (Pos.compare_cont Eq my mz) with (Pos.compare my mz);
    change (Pos.compare_cont Eq mx mz) with (Pos.compare mx mz);
    destruct (Z.compare_spec ex ey), (Z.compare_spec ey ez), (Z.compare_spec ex ez);
    simpl; try discriminate; try reflexivity; try lia; subst;
    destruct (Pos.compare_spec mx my), (Pos.compare_spec my mz), (Pos.compare_spec mx mz);
    simpl; try discriminate; try reflexivity; try lia.
Qed.

(** [t1 <= t2 < v] gives [t1 < v]. *)
Lemma leb_ltb_trans (t1 t2 v : float) :
  (t1 <=? t2) = true -> (t2 <? v) = true -> (t1 <? v) = true.
Proof.
  rewrite FloatAxioms.leb_spec, !FloatAxioms.ltb_spec. apply SFleb_ltb_trans.
Qed.

End FloatOrderMore.

(** ** More on the endpoint of [app.py] *)

Section Lists.

Lemma mask_list_length {A} (mask : list bool) (l : list A) :
  (length (mask_list mask l) <= count_true mask)%nat.
Proof.
  unfold count_true. revert l.
  induction mask as [|b mask IH]; intros [|x l]; simpl; try lia.
  destruct b; simpl; specialize (IH l); lia.
Qed.

Lemma filter_length_le {A} (f : A -> bool) (l : list A) :
  (length (List.filter f l) <= length l)%nat.
Proof. induction l as [|x l IH]; simpl; [lia|]. destruct (f x); simpl; lia. Qed.

Lemma filter_length_mono {A} (f g : A -> bool) (l : list A) :
  (forall x, f x = true -> g x = true) ->
  (length (List.filter f l) <= length (List.filter g l))%nat.
Proof.
  intros H. induction l as [|x l IH]; simpl; [lia|].
  destruct (f x) eqn:F.
  - rewrite (H x F). simpl. lia.
  - destruct (g x); simpl; lia.
Qed.

Lemma filter_none {A} (f : A -> bool) (l : list A) :
  (forall x, f x = false) -> List.filter f l = [].
Proof. intros H. induction l as [|x l IH]; simpl; [reflexivity|]. rewrite H. exact IH. Qed.

Lemma lookup_map {A B} (f : A -> B) (l : list A) (i : nat) :
  map f l !! i = option_map f (l !! i).
Proof.
  revert i. induction l as [|x l IH]; intros [|i]; simpl; try reflexivity. apply IH.
Qed.

End Lists.

Section EndpointMore.

Variable floatify : string -> option float.
Variable float_str : float -> string.

Local Abbreviation run := (latency_check floatify float_str).
Local Abbreviation entry_of := (entry floatify float_str).

Lemma breaches_entry (table : DataFrame) (threshold : float) (region : string) :
  breaches (entry_of table threshold region) =
  Z.of_nat (length (List.filter (fun v => threshold <? v)
    (selected floatify float_str table region (latency_values floatify table)))).
Proof.
  unfold entry. destruct (matches floatify float_str table region =? 0)%nat eqn:Hm.
  - apply Nat.eqb_eq in Hm. unfold selected.
    rewrite (count_true_0_mask _ _ Hm). reflexivity.
  - simpl. unfold sum_bool. rewrite count_true_map. reflexivity.
Qed.

(** X7.  Two requested keys with the same trimmed, lowercased form get the
    same entry. *)
Theorem same_key_same_entry (g : Globals) (payload : Payload) (h : Store)
    (l : nat) (table : DataFrame) (r1 r2 : string) :
  _df g = Some l -> h !! l = Some table ->
  is_Some (latency_col_of table) -> is_Some (region_col_of table) ->
  r1 ∈ regions payload -> r2 ∈ regions payload ->
  region_key_of r1 = region_key_of r2 ->
  exists out h' e,
    run g payload h = (Return out, h') /\
    out !! r1 = Some e /\ out !! r2 = Some e.
Proof.
  intros Hg Hl Hlat Hreg H1 H2 Hk. eexists _, _, _. split; [|split].
  - eapply latency_check_loaded; eassumption.
  - rewrite response_lookup, decide_True by assumption. reflexivity.
  - rewrite response_lookup, decide_True by assumption.
    unfold entry, matches, selected, selected_rows, row_mask. rewrite Hk. reflexivity.
Qed.

(** X1.  Whenever a query returns a response, the response has an entry for
    a key exactly when the key was requested, and a requested key that
    selects no row has the null entry. *)
Theorem latency_check_response_keys (g : Globals) (payload : Payload)
    (h h' : Store) (l : nat) (table : DataFrame) (out : gmap string Metrics) :
  _df g = Some l -> h !! l = Some table ->
  run g payload h = (Return out, h') ->
  (forall k, is_Some (out !! k) <-> k ∈ regions payload) /\
  (forall region, region ∈ regions payload ->
     matches floatify float_str table region = 0%nat ->
     out !! region = Some no_data).
Proof.
  intros Hg Hl Hrun.
  rewrite (latency_check_returned floatify float_str g payload h h' l table out Hg Hl Hrun).
  split.
  - intros k. rewrite response_lookup. destruct (decide (k ∈ regions payload)).
    + split; [tauto|eauto].
    + split; [intros [? ?]; discriminate|contradiction].
  - intros region Hin H0. rewrite response_lookup, decide_True by assumption.
    unfold entry. rewrite H0. reflexivity.
Qed.

(** X9.  The entry of a region does not depend on what else is requested:
    when a query for several regions and the query for one of them alone both
    return, they give that region the same entry. *)
Theorem entry_independent_of_batch (g : Globals) (payload : Payload)
    (h h' h'' : Store) (l : nat) (table : DataFrame) (region : string)
    (out alone : gmap string Metrics) :
  _df g = Some l -> h !! l = Some table ->
  region ∈ regions payload ->
  run g payload h = (Return out, h') ->
  run g (mkPayload [region] (threshold_ms payload)) h = (Return alone, h'') ->
  is_Some (out !! region) /\ out !! region = alone !! region.
Proof.
  intros Hg Hl Hin Hout Halone.
  rewrite (latency_check_returned floatify float_str _ _ _ _ _ _ _ Hg Hl Hout).
  rewrite (latency_check_returned floatify float_str _ _ _ _ _ _ _ Hg Hl Halone).
  rewrite !response_lookup.
  rewrite decide_True by assumption.
  rewrite decide_True by (simpl; apply list_elem_of_here).
  split; [eauto|reflexivity].
Qed.

(** X10.  [breaches] lies between 0 and the number of matched rows, and a NaN
    threshold gives no breach at all. *)
Theorem breaches_bounds (g : Globals) (payload : Payload) (h : Store)
    (l : nat) (table : DataFrame) (region : string) :
  _df g = Some l -> h !! l = Some table ->
  is_Some (latency_col_of table) -> is_Some (region_col_of table) ->
  region ∈ regions payload ->
  exists out h' e,
    run g payload h = (Return out, h') /\
    out !! region = Some e /\
    (0 <= breaches e <= Z.of_nat (matches floatify float_str table region))%Z /\
    (is_nan (threshold_ms payload) = true -> breaches e = 0%Z).
Proof.
  intros Hg Hl Hlat Hreg Hin. eexists _, _, _. split; [|split].
  - eapply latency_check_loaded; eassumption.
  - rewrite response_lookup, decide_True by assumption. reflexivity.
  - rewrite breaches_entry. split.
    + split; [lia|]. apply Nat2Z.inj_le.
      etransitivity; [apply filter_length_le|]. apply mask_list_length.
    + intros Hnan. rewrite filter_none; [reflexivity|].
      intros v. apply ltb_nan_l, Hnan.
Qed.

(** X11.  Raising the threshold never raises [breaches]. *)
Theorem breaches_antitone (g : Globals) (rs : list string) (t1 t2 : float)
    (h : Store) (l : nat) (table : DataFrame) (region : string) :
  _df g = Some l -> h !! l = Some table ->
  is_Some (latency_col_of table) -> is_Some (region_col_of table) ->
  region ∈ rs ->
  (t1 <=? t2) = true ->
  exists out1 h1 e1 out2 h2 e2,
    run g (mkPayload rs t1) h = (Return out1, h1) /\ out1 !! region = Some e1 /\
    run g (mkPayload rs t2) h = (Return out2, h2) /\ out2 !! region = Some e2 /\
    (breaches e2 <= breaches e1)%Z.
Proof.
  intros Hg Hl Hlat Hreg Hin Hle. eexists _, _, _, _, _, _.
  split; [eapply latency_check_loaded; eassumption|].
  split; [rewrite response_lookup, decide_True by assumption; reflexivity|].
  split; [eapply latency_check_loaded; eassumption|].
  split; [rewrite response_lookup, decide_True by assumption; reflexivity|].
  simpl. rewrite !breaches_entry. apply Nat2Z.inj_le, filter_length_mono.
  intros v. apply leb_ltb_trans, Hle.
Qed.

(** X6.  How a row is matched.  When the region column is neither the latency
    nor the uptime column, row [i] is selected by a requested region exactly
    when the text of its region cell, trimmed and lowercased, equals the
    trimmed and lowercased request; a missing cell of a text column counts as
    the text [nan]; the cells of a numeric column are compared as [str] gives
    them, without trimming. *)
Theorem row_matching_rule (table : DataFrame) (lc rc : string)
    (region : string) (i : nat) :
  latency_col_of table = Some lc -> region_col_of table = Some rc ->
  rc <> lc -> uptime_col_of table <> Some rc ->
  match column table rc with
  | Object cells =>
      forall cell, cells !! i = Some cell ->
        row_mask floatify float_str table region !! i =
        Some (String.eqb
                (region_key_of match cell with PStr t => t | PNaN => "nan" end)
                (region_key_of region))
  | Int64 ids =>
      forall z, ids !! i = Some z ->
        row_mask floatify float_str table region !! i =
        Some (String.eqb (pretty z) (region_key_of region))
  | Float64 values =>
      forall v, values !! i = Some v ->
        row_mask floatify float_str table region !! i =
        Some (String.eqb (float_str v) (region_key_of region))
  end.
Proof.
  intros Hlat Hreg Nl Nu. unfold row_mask.
  rewrite (region_keys_plain floatify float_str table lc rc Hlat Hreg Nl Nu).
  destruct (column table rc) as [ids|values|cells]; simpl.
  - intros z Hz. rewrite !lookup_map, Hz. reflexivity.
  - intros v Hv. rewrite !lookup_map, Hv. reflexivity.
  - intros cell Hc. rewrite !lookup_map, Hc. reflexivity.
Qed.

End EndpointMore.

(** ** More on the endpoint of [api/app.py] *)

Section ApiMore.

Implicit Types (telemetry : DataFrame) (result acc : gmap string Metrics).

Lemma getitem_missing (df : DataFrame) (key : string) :
  existsb (String.eqb key) (Pd.columns df) = false ->
  getitem df key = Raise (KeyError key).
Proof.
  intros H. destruct (getitem df key) as [s|e] eqn:G.
  - apply getitem_Return in G. congruence.
  - unfold getitem in G. destruct (List.find _ (data df)); [discriminate|symmetry; exact G].
Qed.

Lemma getitem_data_not_empty (df : DataFrame) (key : string) (s : Series) :
  getitem df key = Return s -> (length (data df) =? 0)%nat = false.
Proof.
  unfold getitem. destruct df as [n [|kv l]]; simpl; [discriminate|reflexivity].
Qed.

(** One iteration, read off the whole table. *)
Lemma check_region_spec telemetry (threshold : float) result (region : string)
    (col : Series) :
  getitem telemetry "region" = Return col ->
  Api.check_region telemetry threshold result region =
  if (count_true (eq_scalar col region) =? 0)%nat then Return result
  else obind (api_entry telemetry threshold (eq_scalar col region))
             (fun e => Return (<[region := e]> result)).
Proof.
  intros Hcol. unfold Api.check_region. rewrite Hcol. simpl obind. unfold empty.
  change (index_len (mask_rows (eq_scalar col region) telemetry))
    with (count_true (eq_scalar col region)).
  replace (length (data (mask_rows (eq_scalar col region) telemetry)))
    with (length (data telemetry)) by (simpl; rewrite length_map; reflexivity).
  rewrite (getitem_data_not_empty _ _ _ Hcol), orb_false_r.
  destruct (count_true (eq_scalar col region) =? 0)%nat; [reflexivity|].
  unfold api_entry. rewrite !getitem_mask_rows.
  destruct (getitem telemetry "latency_ms") as [lat|]; simpl; [|reflexivity].
  destruct (mean _) as [avg|]; simpl; [|reflexivity].
  destruct (percentile _ 95) as [p95|]; simpl; [|reflexivity].
  destruct (getitem telemetry "uptime") as [up|]; simpl; [|reflexivity].
  destruct (mean _) as [avgu|]; simpl; [|reflexivity].
  destruct (gt_scalar _ threshold) as [over|]; reflexivity.
Qed.

(** The loop, once it has returned: a requested region with rows has the
    entry [api_entry] computes for it, every other key is as before. *)
Lemma for_each_region_result telemetry (threshold : float) (col : Series)
    (rs : list string) acc result :
  getitem telemetry "region" = Return col ->
  Api.for_each_region (Api.check_region telemetry threshold) rs acc = Return result ->
  forall region,
    (region ∈ rs -> count_true (eq_scalar col region) <> 0%nat ->
     exists e, api_entry telemetry threshold (eq_scalar col region) = Return e /\
               result !! region = Some e) /\
    (~ (region ∈ rs /\ count_true (eq_scalar col region) <> 0%nat) ->
     result !! region = acc !! region).
Proof.
  intros Hcol. revert acc. induction rs as [|r rs IH]; intros acc; simpl.
  - intros [= <-] region. split; [intros H; inversion H|reflexivity].
  - rewrite (check_region_spec _ _ _ _ _ Hcol).
    destruct (count_true (eq_scalar col r) =? 0)%nat eqn:Hr; simpl.
    + apply Nat.eqb_eq in Hr. intros Hrun region.
      destruct (IH _ Hrun region) as [Hin Hout]. split.
      * intros Hreg Hc. apply elem_of_cons in Hreg as [->|Hreg]; [contradiction|auto].
      * intros N. apply Hout. intros [Hreg Hc]. apply N. split; [|assumption].
        apply elem_of_cons. auto.
    + apply Nat.eqb_neq in Hr.
      destruct (api_entry telemetry threshold (eq_scalar col r)) as [e0|] eqn:He;
        simpl; [|discriminate].
      intros Hrun region. destruct (IH _ Hrun region) as [Hin Hout].
      destruct (decide (region ∈ rs /\ count_true (eq_scalar col region) <> 0%nat))
        as [[Hreg Hc]|N].
      * split; [intros _ _; auto|]. intros N. exfalso. apply N. split; [|assumption].
        apply elem_of_cons. auto.
      * rewrite (Hout N). split.
        -- intros Hreg Hc. apply elem_of_cons in Hreg as [->|Hreg]; [|tauto].
           exists e0. split; [assumption|]. apply lookup_insert_eq.
        -- intros N'. apply lookup_insert_ne. intros <-. apply N'.
           split; [apply list_elem_of_here|assumption].
Qed.

(** An error that [api_entry] raises whatever the rows stops the loop at the
    first requested region that has rows. *)
Lemma for_each_region_raise telemetry (threshold : float) (col : Series)
    (rs : list string) acc (region : string) (e : exn) :
  getitem telemetry "region" = Return col ->
  region ∈ rs -> count_true (eq_scalar col region) <> 0%nat ->
  (forall mask, api_entry telemetry threshold mask = Raise e) ->
  Api.for_each_region (Api.check_region telemetry threshold) rs acc = Raise e.
Proof.
  intros Hcol Hin Hc He. revert acc. induction rs as [|r rs IH]; intros acc; simpl.
  - inversion Hin.
  - rewrite (check_region_spec _ _ _ _ _ Hcol).
    destruct (count_true (eq_scalar col r) =? 0)%nat eqn:Hr; simpl.
    + apply Nat.eqb_eq in Hr. apply IH.
      apply elem_of_cons in Hin as [->|Hin]; [contradiction|assumption].
    + rewrite He. reflexivity.
Qed.

(** [np.percentile] returns on a numeric column. *)
Lemma percentile_numeric (s : Series) (q : float) :
  is_object s = false -> exists p, percentile s q = Return p.
Proof. destruct s; simpl; [eauto..|discriminate]. Qed.

(** X12.  The response of [check_latency] has an entry for exactly those
    requested regions that equal, character for character, the region cell of
    some row. *)
Theorem check_latency_keys telemetry (body : Api.Body) result (col : Series)
    (region : string) :
  getitem telemetry "region" = Return col ->
  Api.check_latency telemetry body = Return result ->
  (is_Some (result !! region) <->
   region ∈ regions_of body /\ count_true (eq_scalar col region) <> 0%nat).
Proof.
  intros Hcol Hrun. unfold Api.check_latency in Hrun.
  destruct (for_each_region_result _ _ _ _ _ _ Hcol Hrun region) as [Hin Hout].
  split.
  - intros Hsome.
    destruct (decide (region ∈ regions_of body /\
                      count_true (eq_scalar col region) <> 0%nat)) as [?|N];
      [assumption|].
    rewrite (Hout N), lookup_empty in Hsome. destruct Hsome as [? ?]. discriminate.
  - intros [Hreg Hc]. destruct (Hin Hreg Hc) as (e & _ & ->). eauto.
Qed.


(** X14.  Without a column named [region] the request fails with [KeyError] as
    soon as one region is requested; with no region requested, or no
    [regions] key in the body, the response is empty whatever the table. *)
Theorem check_latency_without_region_column telemetry (body : Api.Body) :
  existsb (String.eqb "region") (Pd.columns telemetry) = false ->
  Api.check_latency telemetry body =
  match regions_of body with
  | [] => Return ∅
  | _ :: _ => Raise (KeyError "region")
  end.
Proof.
  intros H. unfold Api.check_latency. fold (regions_of body).
  destruct (regions_of body) as [|r rs]; simpl; [reflexivity|].
  unfold Api.check_region. rewrite (getitem_missing _ _ H). reflexivity.
Qed.

(** X15.  Both [latency_ms] and [uptime] are mandatory here.  When some
    requested region has rows, a table without a [latency_ms] column, or with
    a numeric [latency_ms] column and no [uptime] column, makes the whole
    request fail with the [KeyError] of the missing name. *)
Theorem check_latency_needs_columns telemetry (body : Api.Body) (col : Series)
    (region : string) :
  getitem telemetry "region" = Return col ->
  region ∈ regions_of body ->
  count_true (eq_scalar col region) <> 0%nat ->
  (existsb (String.eqb "latency_ms") (Pd.columns telemetry) = false ->
   Api.check_latency telemetry body = Raise (KeyError "latency_ms")) /\
  (forall lat, getitem telemetry "latency_ms" = Return lat ->
   is_object lat = false ->
   existsb (String.eqb "uptime") (Pd.columns telemetry) = false ->
   Api.check_latency telemetry body = Raise (KeyError "uptime")).
Proof.
  intros Hcol Hreg Hc. unfold Api.check_latency. fold (regions_of body).
  split.
  - intros H. apply (for_each_region_raise _ _ _ _ _ _ _ Hcol Hreg Hc).
    intros mask. unfold api_entry. rewrite (getitem_missing _ _ H). reflexivity.
  - intros lat Hlat Hnum Hup.
    apply (for_each_region_raise _ _ _ _ _ _ _ Hcol Hreg Hc).
    intros mask. unfold api_entry. rewrite Hlat. simpl obind.
    assert (is_object (mask_series mask lat) = false) as Hm
      by (rewrite is_object_mask; exact Hnum).
    rewrite (mean_numeric _ Hm). simpl obind.
    destruct (percentile_numeric _ 95 Hm) as [p ->]. simpl obind.
    rewrite (getitem_missing _ _ Hup). reflexivity.
Qed.

End ApiMore.

(** ** The further properties on the sample tables *)

(** X1 on the scenario table, with a repeated and an unmatched key. *)
Lemma latency_check_response_keys_witness :
  let out : gmap string Metrics :=
    {[ "us-east" := mkMetrics (Some 200) (Some 290) (Some 0.49995) 1;
       "mars" := no_data ]} in
  (forall k, is_Some (out !! k) <-> k ∈ ["us-east"; "mars"; "us-east"]) /\
  (forall region, region ∈ ["us-east"; "mars"; "us-east"] ->
     matches floatify_digits float_str_integral us_east_table region = 0%nat ->
     out !! region = Some no_data).
Proof.
  apply (latency_check_response_keys floatify_digits float_str_integral loaded
           (mkPayload ["us-east"; "mars"; "us-east"] 150) [us_east_table]
           [us_east_table; working_frame floatify_digits float_str_integral us_east_table]
           0%nat us_east_table).
  - reflexivity.
  - reflexivity.
  - vm_compute. reflexivity.
Defined.

(** X7 on two spellings of one region. *)
Lemma same_key_same_entry_witness :
  exists out h' e,
    latency_check floatify_digits float_str_integral loaded
      (mkPayload ["us-east"; " US-EAST  "] 150) [us_east_table] = (Return out, h') /\
    out !! "us-east" = Some e /\ out !! " US-EAST  " = Some e.
Proof.
  apply (same_key_same_entry floatify_digits float_str_integral loaded
           (mkPayload ["us-east"; " US-EAST  "] 150) [us_east_table] 0%nat
           us_east_table "us-east" " US-EAST  ").
  - reflexivity.
  - reflexivity.
  - vm_compute. eexists. reflexivity.
  - vm_compute. eexists. reflexivity.
  - apply list_elem_of_here.
  - apply list_elem_of_further, list_elem_of_here.
  - reflexivity.
Defined.

(** X9 on the scenario table. *)
Lemma entry_independent_of_batch_witness :
  let out : gmap string Metrics :=
    {[ "us-east" := mkMetrics (Some 200) (Some 290) (Some 0.49995) 1;
       "mars" := no_data ]} in
  let alone : gmap string Metrics :=
    {[ "us-east" := mkMetrics (Some 200) (Some 290) (Some 0.49995) 1 ]} in
  is_Some (out !! "us-east") /\ out !! "us-east" = alone !! "us-east".
Proof.
  apply (entry_independent_of_batch floatify_digits float_str_integral loaded
           (mkPayload ["mars"; "us-east"] 150) [us_east_table]
           [us_east_table; working_frame floatify_digits float_str_integral us_east_table]
           [us_east_table; working_frame floatify_digits float_str_integral us_east_table]
           0%nat us_east_table "us-east").
  - reflexivity.
  - reflexivity.
  - apply list_elem_of_further, list_elem_of_here.
  - vm_compute. reflexivity.
  - vm_compute. reflexivity.
Defined.

(** X10 with a NaN threshold. *)
Lemma breaches_bounds_witness :
  exists out h' e,
    latency_check floatify_digits float_str_integral loaded
      (mkPayload ["eu"] nan) [gappy_table] = (Return out, h') /\
    out !! "eu" = Some e /\
    (0 <= breaches e <=
     Z.of_nat (matches floatify_digits float_str_integral gappy_table "eu"))%Z /\
    (is_nan nan = true -> breaches e = 0%Z).
Proof.
  apply (breaches_bounds floatify_digits float_str_integral loaded
           (mkPayload ["eu"] nan) [gappy_table] 0%nat gappy_table "eu").
  - reflexivity.
  - reflexivity.
  - vm_compute. eexists. reflexivity.
  - vm_compute. eexists. reflexivity.
  - apply list_elem_of_here.
Defined.

(** X11 with the thresholds 50 and 150. *)
Lemma breaches_antitone_witness :
  exists out1 h1 e1 out2 h2 e2,
    latency_check floatify_digits float_str_integral loaded
      (mkPayload ["us-east"] 50) [us_east_table] = (Return out1, h1) /\
    out1 !! "us-east" = Some e1 /\
    latency_check floatify_digits float_str_integral loaded
      (mkPayload ["us-east"] 150) [us_east_table] = (Return out2, h2) /\
    out2 !! "us-east" = Some e2 /\
    (breaches e2 <= breaches e1)%Z.
Proof.
  apply (breaches_antitone floatify_digits float_str_integral loaded
           ["us-east"] 50 150 [us_east_table] 0%nat us_east_table "us-east").
  - reflexivity.
  - reflexivity.
  - vm_compute. eexists. reflexivity.
  - vm_compute. eexists. reflexivity.
  - apply list_elem_of_here.
  - reflexivity.
Defined.

(** X6 on the row whose region cell is missing. *)
Lemma row_matching_rule_witness :
  row_mask floatify_digits float_str_integral gappy_table " NaN" !! 1%nat =
  Some (String.eqb (region_key_of "nan") (region_key_of " NaN")).
Proof.
  exact (row_matching_rule floatify_digits float_str_integral gappy_table
           "latency_ms" "region" " NaN" 1 eq_refl eq_refl
           ltac:(discriminate) ltac:(vm_compute; discriminate) PNaN eq_refl).
Defined.

(** A missing region cell is selected by the request [NaN]. *)
Example missing_region_matches_nan :
  row_mask floatify_digits float_str_integral gappy_table " NaN"
  = [false; true; false] /\
  row_mask floatify_digits float_str_integral gappy_table "EU"
  = [true; false; true].
Proof. split; vm_compute; reflexivity. Qed.

(** X12 on the scenario table. *)
Lemma check_latency_keys_witness :
  let result : gmap string Metrics :=
    {[ "us-east" := mkMetrics (Some 300) (Some 300) (Some 99) 1 ]} in
  is_Some (result !! "US-East") <->
  "US-East" ∈ regions_of (Api.mkBody (Some ["US-East"; "us-east"]) None) /\
  count_true (eq_scalar (Object [PStr "US-East "; PStr "us-east"]) "US-East")
  <> 0%nat.
Proof.
  apply (check_latency_keys us_east_table
           (Api.mkBody (Some ["US-East"; "us-east"]) None)
           {[ "us-east" := mkMetrics (Some 300) (Some 300) (Some 99) 1 ]}
           (Object [PStr "US-East "; PStr "us-east"]) "US-East").
  - reflexivity.
  - vm_compute. reflexivity.
Defined.

(** [check_latency] compares the region cells as they are: the row whose cell
    has a trailing blank is found neither by [US-East] nor by [us-east]. *)
Example check_latency_is_verbatim :
  Api.check_latency us_east_table (Api.mkBody (Some ["US-East"; "us-east"]) None)
  = Return {[ "us-east" := mkMetrics (Some 300) (Some 300) (Some 99) 1 ]}.
Proof. vm_compute. reflexivity. Qed.


(** Two rows of one region: the percentile of the int64 latencies 300 and
    100 is 290, and the mean uptime is reported as it is in the table. *)
Example check_latency_two_rows :
  Api.check_latency
    (mkFrame 2 [ ("region", Object [PStr "eu"; PStr "eu"]);
                 ("latency_ms", Int64 [300; 100]%Z);
                 ("uptime", Float64 [0.99; 99]) ])
    (Api.mkBody (Some ["eu"]) None)
  = Return {[ "eu" := mkMetrics (Some 200) (Some 290) (Some 49.995) 1 ]}.
Proof. vm_compute. reflexivity. Qed.

(** X14 on the table with the columns [timestamp] and [value]. *)
Lemma check_latency_without_region_column_witness :
  Api.check_latency unknown_table (Api.mkBody (Some ["eu"]) (Some 100))
  = Raise (KeyError "region") /\
  Api.check_latency unknown_table (Api.mkBody None (Some 100)) = Return ∅.
Proof.
  split.
  - apply (check_latency_without_region_column unknown_table
             (Api.mkBody (Some ["eu"]) (Some 100))). reflexivity.
  - apply (check_latency_without_region_column unknown_table
             (Api.mkBody None (Some 100))). reflexivity.
Defined.

(** X15 on the five samples, which have latencies and no uptime. *)
Lemma check_latency_needs_columns_witness :
  Api.check_latency five_table (Api.mkBody (Some ["mars"; "eu"]) None)
  = Raise (KeyError "uptime").
Proof.
  apply (proj2 (check_latency_needs_columns five_table
                  (Api.mkBody (Some ["mars"; "eu"]) None)
                  (Object [PStr "eu"; PStr "eu"; PStr "eu"; PStr "eu"; PStr "eu"]) "eu"
                  eq_refl
                  ltac:(apply list_elem_of_further, list_elem_of_here)
                  ltac:(vm_compute; discriminate))
         (Int64 [10; 20; 30; 40; 50]%Z)).
  - reflexivity.
  - reflexivity.
  - reflexivity.
Defined.

(** A table that has a region column only. *)
Example region_column_alone :
  Api.check_latency bare_table (Api.mkBody (Some ["mars"; "eu"]) None)
  = Raise (KeyError "latency_ms").
Proof. vm_compute. reflexivity. Qed.

(** On the five samples table, which has no [uptime] column, [latency_check]
    answers and [check_latency] fails. *)
Example uptime_is_optional_in_one_endpoint_only :
  Api.check_latency five_table (Api.mkBody (Some ["eu"]) (Some 30))
  = Raise (KeyError "uptime") /\
  fst (run_query five_table (mkPayload ["eu"] 30))
  = Return {[ "eu" := mkMetrics (Some 30) (Some 48) None 2 ]}.
Proof. split; vm_compute; reflexivity. Qed.
